(** * Management-Commentary-Summary: the /api/analyze route

  A shallow embedding of the request handler of the research portal
  (the route module with [extractTextFromFile], [summarizeEarningsCall]
  and [POST]) and the properties of its ingestion pipeline.

  Conventions.
  - A JavaScript string is the list of its UTF-16 code units, so that
    [length], [slice], [trim] and [endsWith] count what the runtime counts.
  - A [Buffer] is a list of bytes.
  - The calls that leave the module (the PDF parser, the UTF-8 decoder of
    [Buffer], the Gemini client, [JSON.parse], the environment) are the
    fields of a [World]; every call is recorded in a trace of [Event]s.
  - [throw], [try]/[catch] and early [return] are an exception monad over
    that trace. *)

From Stdlib Require Import List NArith ZArith Bool Lia String Ascii.
From Stdlib Require Import Strings.Byte.
From Stdlib Require Floats.SpecFloat.
Import ListNotations.

Local Open Scope Z_scope.

(* ===================================================================== *)
(** ** JavaScript strings *)
(* ===================================================================== *)

Module JsString.

Definition code_unit := N.
Definition jsstring := list code_unit.

(** An ASCII literal as a JavaScript string. *)
Definition js (s : string) : jsstring :=
  List.map N_of_ascii (list_ascii_of_string s).

Arguments js s%_string.

(** The double quote and the line feed, which cannot be written inside a
    literal. *)
Definition dquote : code_unit := 34%N.
Definition LF : code_unit := 10%N.

Fixpoint eqb (s t : jsstring) : bool :=
  match s, t with
  | [], [] => true
  | c :: s', d :: t' => N.eqb c d && eqb s' t'
  | _, _ => false
  end.

(** [s.length] *)
Definition length (s : jsstring) : Z := Z.of_nat (List.length s).

(** [!s] for a string: only the empty string is falsy. *)
Definition falsy (s : jsstring) : bool :=
  match s with [] => true | _ :: _ => false end.

(** The index arithmetic of [String.prototype.slice]: a negative index
    counts from the end, and both ends are clamped to the string. *)
Definition clamp_index (len i : Z) : Z :=
  if i <? 0 then Z.max (len + i) 0 else Z.min i len.

(** [s.slice(start, end)] *)
Definition slice (s : jsstring) (start finish : Z) : jsstring :=
  let len := length s in
  let from := clamp_index len start in
  let to := clamp_index len finish in
  if to <=? from then []
  else firstn (Z.to_nat (to - from)) (skipn (Z.to_nat from) s).

(** WhiteSpace and LineTerminator code points of ECMAScript, the ones
    [trim] strips. *)
Definition is_whitespace (c : code_unit) : bool :=
  ((9 <=? c) && (c <=? 13) || (c =? 32) || (c =? 160) || (c =? 5760)
   || (8192 <=? c) && (c <=? 8202) || (c =? 8232) || (c =? 8233)
   || (c =? 8239) || (c =? 8287) || (c =? 12288) || (c =? 65279))%N.

Fixpoint trimStart (s : jsstring) : jsstring :=
  match s with
  | c :: s' => if is_whitespace c then trimStart s' else s
  | [] => []
  end.

Definition trimEnd (s : jsstring) : jsstring :=
  rev (trimStart (rev s)).

(** [s.trim()] *)
Definition trim (s : jsstring) : jsstring := trimEnd (trimStart s).

(** [s.toLowerCase()] on the Basic Latin letters.  The Unicode mapping of
    the other letters is not modelled: none of them maps to a full stop or
    to one of the letters p, d, f, the only code units the route looks
    for in a lower-cased name. *)
Definition lower (c : code_unit) : code_unit :=
  if ((65 <=? c) && (c <=? 90))%N then (c + 32)%N else c.

Definition toLowerCase (s : jsstring) : jsstring := List.map lower s.

(** [s.endsWith(suffix)] *)
Definition endsWith (s suffix : jsstring) : bool :=
  let start := length s - length suffix in
  if start <? 0 then false
  else eqb (skipn (Z.to_nat start) s) suffix.

End JsString.

Abbreviation code_unit := JsString.code_unit.
Abbreviation jsstring := JsString.jsstring.
Abbreviation js := JsString.js.
Abbreviation dquote := JsString.dquote.
Abbreviation LF := JsString.LF.

(* ===================================================================== *)
(** ** Buffers *)
(* ===================================================================== *)

Module Buffer.

Definition Buffer : Type := list byte.

(** [arrayBuffer.byteLength] *)
Definition byteLength (b : Buffer) : Z := Z.of_nat (List.length b).

Definition alphabet : jsstring :=
  js "ABCDEFGHIJKLMNOPQRSTUVWXYZabcdefghijklmnopqrstuvwxyz0123456789+/".

Definition pad : code_unit := 61%N.

Definition digit (i : N) : code_unit := nth (N.to_nat i) alphabet 0%N.

(** [buffer.toString("base64")]: three bytes become four digits; a last
    group of one or two bytes is padded with [=]. *)
Fixpoint toString_base64 (b : Buffer) : jsstring :=
  match b with
  | [] => []
  | [x] =>
      let n := Byte.to_N x in
      [digit (n / 4); digit ((n mod 4) * 16); pad; pad]%N
  | [x; y] =>
      let n := Byte.to_N x in
      let m := Byte.to_N y in
      [digit (n / 4); digit ((n mod 4) * 16 + m / 16);
       digit ((m mod 16) * 4); pad]%N
  | x :: y :: z :: rest =>
      let n := Byte.to_N x in
      let m := Byte.to_N y in
      let k := Byte.to_N z in
      [digit (n / 4); digit ((n mod 4) * 16 + m / 16);
       digit ((m mod 16) * 4 + k / 64); digit (k mod 64)]%N
      ++ toString_base64 rest
  end.

(** The value of a base64 digit. *)
Definition undigit (c : code_unit) : option N :=
  if ((65 <=? c) && (c <=? 90))%N then Some (c - 65)%N
  else if ((97 <=? c) && (c <=? 122))%N then Some (c - 71)%N
  else if ((48 <=? c) && (c <=? 57))%N then Some (c + 4)%N
  else if (c =? 43)%N then Some 62%N
  else if (c =? 47)%N then Some 63%N
  else None.

(** A digit value that reads back as itself and is not the padding sign. *)
Definition digit_ok (i : N) : bool :=
  match undigit (digit i) with
  | Some j => N.eqb i j && negb (N.eqb (digit i) pad)
  | None => false
  end.

(** Reading a group of four digits back: one, two or three bytes,
    by the number of [=] signs that close it. *)
Definition decode_group (a b p q : code_unit) : option Buffer :=
  match undigit a, undigit b with
  | Some a', Some b' =>
      match Byte.of_N (a' * 4 + b' / 16) with
      | Some x =>
          if (p =? pad)%N then
            if (q =? pad)%N then Some [x] else None
          else
            match undigit p with
            | Some p' =>
                match Byte.of_N ((b' mod 16) * 16 + p' / 4) with
                | Some y =>
                    if (q =? pad)%N then Some [x; y]
                    else
                      match undigit q with
                      | Some q' =>
                          match Byte.of_N ((p' mod 4) * 64 + q') with
                          | Some z => Some [x; y; z]
                          | None => None
                          end
                      | None => None
                      end
                | None => None
                end
            | None => None
            end
      | None => None
      end
  | _, _ => None
  end%N.

(** The receiving side of the transport encoding, [Buffer.from(s,
    "base64")] on a padded string.  The route never decodes; this reading
    is what states that the encoded attachment still holds the bytes. *)
Fixpoint from_base64 (s : jsstring) : option Buffer :=
  match s with
  | [] => Some []
  | a :: b :: p :: q :: rest =>
      match decode_group a b p q, from_base64 rest with
      | Some xs, Some tl => Some (xs ++ tl)
      | _, _ => None
      end
  | _ => None
  end.

End Buffer.

Abbreviation Buffer := Buffer.Buffer.

(* ===================================================================== *)
(** ** JSON values *)
(* ===================================================================== *)

(** What [JSON.parse] returns and [NextResponse.json] serializes.  An object
    is the list of its members in insertion order. *)
#[warnings="-register-all"]
Inductive Json : Type :=
| JNull
| JBool (b : bool)
| JNumber (x : SpecFloat.spec_float)
| JString (s : jsstring)
| JArray (items : list Json)
| JObject (members : list (jsstring * Json)).

Module JsonOps.

(** [key in obj], for an object; [false] on every other value. *)
Definition has_key (k : jsstring) (j : Json) : bool :=
  match j with
  | JObject members => existsb (fun m => JsString.eqb (fst m) k) members
  | _ => false
  end.

(** [obj[key]], [None] standing for [undefined]. *)
Definition get (k : jsstring) (j : Json) : option Json :=
  match j with
  | JObject members =>
      option_map snd (find (fun m => JsString.eqb (fst m) k) members)
  | _ => None
  end.

Definition strings (l : list string) : Json :=
  JArray (List.map (fun s => JString (js s)) l).

Definition obj (members : list (string * Json)) : Json :=
  JObject (List.map (fun m => (js (fst m), snd m)) members).

Arguments strings l%_string.
Arguments obj members%_string.

End JsonOps.

(* ===================================================================== *)
(** ** Constants of the route *)
(* ===================================================================== *)

Definition MAX_CHARS : Z := 40000.
Definition MAX_FILE_BYTES : Z := 20 * 1024 * 1024.

(** A double-quoted word of the prompt. *)
Definition quoted (s : string) : jsstring := [dquote] ++ js s ++ [dquote].

Arguments quoted s%_string.

(** A template literal that opens and closes on a line break: each line is
    given by its pieces. *)
Definition template (lines : list (list jsstring)) : jsstring :=
  [LF] ++ flat_map (fun l => List.concat l ++ [LF]) lines.

Definition SYSTEM_PROMPT : jsstring :=
  template
  [
   [js "You are a buy-side equity research analyst assistant. Your job is to create a **strictly factual**,"];
   [js "structured summary of an earnings call transcript or management commentary."];
   [];
   [js "Rules:"];
   [js "- **Never hallucinate or invent numbers, guidance, or initiatives.**"];
   [js "- Only use information explicitly present in the transcript text provided."];
   [js "- If a field is missing, vague, or not clearly stated, mark it as **null** (for strings) or an **empty array** (for lists)."];
   [js "- When in doubt, be conservative and prefer "; quoted "not discussed"; js " / null over guessing."];
   [js "- Capture short **supporting direct quotes** where possible, but never fabricate quotes."];
   [];
   [js "Tone assessment:"];
   [js "- "; quoted "optimistic"; js ": management is clearly positive on outlook/trajectory."];
   [js "- "; quoted "cautious"; js ": mixed but leaning careful/guarded."];
   [js "- "; quoted "neutral"; js ": largely descriptive, little explicit positive or negative tone."];
   [js "- "; quoted "pessimistic"; js ": clearly negative, focused on headwinds."];
   [];
   [js "Confidence:"];
   [js "- "; quoted "high"; js ": transcript has explicit guidance and multiple concrete data points."];
   [js "- "; quoted "medium"; js ": some guidance but with qualifiers or limited detail."];
   [js "- "; quoted "low"; js ": vague language, limited data, or very partial transcript."];
   [];
   [js "Forward guidance:"];
   [js "- Summarize **only** what they explicitly guide on (revenue, margins, capex, and other specifics)."];
   [js "- Avoid adding your own projections."];
   [];
   [js "Capacity utilization:"];
   [js "- Only summarize if there is explicit discussion of utilization, load factors, occupancy, or similar metrics."];
   [];
   [js "Growth initiatives:"];
   [js "- Capture 2"; [8211%N]; js "3 **distinct** new or emphasized growth initiatives (products, geographies, channels, capex projects, etc.)."];
   [js "- If none are clearly articulated, return an empty array."];
   [];
   [js "Output format:"];
   [js "Return **valid JSON** that matches this TypeScript type shape exactly:"];
   [];
   [js "type Tone = "; quoted "optimistic"; js " | "; quoted "cautious"; js " | "; quoted "neutral"; js " | "; quoted "pessimistic"; js " | "; quoted "unknown"; js ";"];
   [js "type Confidence = "; quoted "high"; js " | "; quoted "medium"; js " | "; quoted "low"; js " | "; quoted "unknown"; js ";"];
   [];
   [js "type BulletPoint = {"];
   [js "  summary: string;"];
   [js "  supporting_quote?: string | null;"];
   [js "};"];
   [];
   [js "type ForwardGuidance = {"];
   [js "  revenue?: string | null;"];
   [js "  margin?: string | null;"];
   [js "  capex?: string | null;"];
   [js "  other?: string | null;"];
   [js "};"];
   [];
   [js "type EarningsSummary = {"];
   [js "  tone: Tone;"];
   [js "  confidence: Confidence;"];
   [js "  tone_rationale: string | null;"];
   [js "  key_positives: BulletPoint[];"];
   [js "  key_concerns: BulletPoint[];"];
   [js "  forward_guidance: ForwardGuidance;"];
   [js "  capacity_utilization: string | null;"];
   [js "  growth_initiatives: BulletPoint[];"];
   [js "  raw_notes?: string | null;"];
   [js "};"];
   [];
   [js "If something is missing or ambiguous, use:"];
   [js "- "; quoted "unknown"; js " for tone or confidence, or"];
   [js "- null / [] as appropriate for other fields."];
   [];
   [js "Respond with **JSON only**, with no surrounding explanation text."]
  ].

Module Schema.
Import JsonOps.
Local Open Scope string_scope.

Definition nullable_string : Json :=
  obj [("type", strings ["string"; "null"])].

(** The [items] schema shared by the three bullet lists. *)
Definition bullet_point : Json :=
  obj [("type", JString (js "object"));
       ("additionalProperties", JBool false);
       ("properties",
        obj [("summary", obj [("type", JString (js "string"))]);
             ("supporting_quote", nullable_string)]);
       ("required", strings ["summary"]);
       ("nullable", JBool false)].

Definition bullet_list : Json :=
  obj [("type", JString (js "array")); ("items", bullet_point)].

Definition EARNINGS_SUMMARY_SCHEMA : Json :=
  obj [("type", JString (js "object"));
       ("additionalProperties", JBool false);
       ("properties",
        obj [("tone",
              obj [("type", JString (js "string"));
                   ("enum", strings ["optimistic"; "cautious"; "neutral";
                                     "pessimistic"; "unknown"])]);
             ("confidence",
              obj [("type", JString (js "string"));
                   ("enum", strings ["high"; "medium"; "low"; "unknown"])]);
             ("tone_rationale", nullable_string);
             ("key_positives", bullet_list);
             ("key_concerns", bullet_list);
             ("forward_guidance",
              obj [("type", JString (js "object"));
                   ("additionalProperties", JBool false);
                   ("properties",
                    obj [("revenue", nullable_string);
                         ("margin", nullable_string);
                         ("capex", nullable_string);
                         ("other", nullable_string)])]);
             ("capacity_utilization", nullable_string);
             ("growth_initiatives", bullet_list);
             ("raw_notes", nullable_string)]);
       ("required",
        strings ["tone"; "confidence"; "tone_rationale"; "key_positives";
                 "key_concerns"; "forward_guidance"; "capacity_utilization";
                 "growth_initiatives"])].

(** The keys the schema lists under [required]. *)
Definition required_keys : list jsstring :=
  match get (js "required") EARNINGS_SUMMARY_SCHEMA with
  | Some (JArray ks) =>
      flat_map (fun k => match k with JString s => [s] | _ => [] end) ks
  | _ => []
  end.

End Schema.

(* ===================================================================== *)
(** ** Requests, responses and the world outside the module *)
(* ===================================================================== *)

Module File.
(** An uploaded [File]: its name, its declared media type, its content. *)
Record File : Type := { name : jsstring; type : jsstring; bytes : Buffer }.
End File.

Abbreviation File := File.File.

(** A value of a multipart form: a string or a file. *)
Inductive FormDataEntryValue : Type :=
| EntryString (s : jsstring)
| EntryFile (f : File).

Definition FormData : Type := list (jsstring * FormDataEntryValue).

(** [formData.get(name)]: the first value under that name, else [null]. *)
Definition FormData_get (fd : FormData) (k : jsstring)
  : option FormDataEntryValue :=
  option_map snd (find (fun e => JsString.eqb (fst e) k) fd).

(** A thrown value, as far as the route looks at it: [error?.message].  The
    message is [None] when the thrown value is nullish or has none. *)
Record JsError : Type := { message : option jsstring }.

Definition Error (msg : string) : JsError := {| message := Some (js msg) |}.

Arguments Error msg%_string.

(** A request, as far as the route reads it: what [req.formData()] gives. *)
Record NextRequest : Type := { formData : JsError + FormData }.

Record Response : Type := { status : Z; body : Json }.

(** [NextResponse.json(body, { status })] *)
Definition NextResponse_json (b : Json) (st : Z) : Response :=
  {| status := st; body := b |}.

(** The [inlineData] of an attachment part. *)
Record InlineData : Type := { mimeType : jsstring; data : jsstring }.

Inductive Part : Type :=
| TextPart (text : jsstring)
| InlineDataPart (inlineData : InlineData).

Record Content : Type := { role : jsstring; parts : list Part }.

Record GenerateContentConfig : Type :=
  { responseMimeType : jsstring; responseSchema : Json }.

Record GenerateContentParameters : Type :=
  { model : jsstring; contents : list Content; config : GenerateContentConfig }.

(** Everything the route reaches outside its own module. *)
Record World : Type :=
  { (** [process.env.GEMINI_API_KEY] *)
    env_GEMINI_API_KEY : option jsstring;
    (** [import("pdf-parse")], [new PDFParse({ data })], [getText()] and the
        [text] of its result: any of them may throw. *)
    pdf_getText : Buffer -> JsError + jsstring;
    (** [buffer.toString("utf-8")] *)
    toString_utf8 : Buffer -> jsstring;
    (** [new GoogleGenAI({ apiKey }).models.generateContent(params)]: it
        throws, or answers with a response whose [text] may be undefined. *)
    generateContent :
      jsstring -> GenerateContentParameters -> JsError + option jsstring;
    (** [JSON.parse] *)
    JSON_parse : jsstring -> JsError + Json }.

(** The calls that leave the module, in the order they are made. *)
Inductive Event : Type :=
| EvPdfParse (data : Buffer)
| EvUtf8Decode (data : Buffer)
| EvGenerateContent (apiKey : jsstring) (params : GenerateContentParameters).

(** The places where the route gives up: its two early returns and every
    point a [throw] can come from. *)
Inductive Site : Type :=
| AtFormData       (* req.formData() threw *)
| AtToolCheck      (* tool !== "earnings_summary" *)
| AtFileCheck      (* !(file instanceof File) *)
| AtSizeCheck      (* byteLength > MAX_FILE_BYTES *)
| AtPdfParse       (* inside the try of extractTextFromFile *)
| AtApiKeyCheck    (* !apiKey *)
| AtGenerateContent (* the model call threw *)
| AtEmptyText      (* !jsonText *)
| AtJsonParse.     (* JSON.parse threw *)

(** The error kinds of the design, and the kind each site is the trigger
    of.  The sites are a record of where the code stopped; the code itself
    never reads them. *)
Inductive ErrorKind : Type :=
| InputValidationError
| PayloadTooLarge
| ConfigMissing
| UpstreamModelError
| SchemaParseError
| UnexpectedError.

Definition kind_of_site (s : Site) : ErrorKind :=
  match s with
  | AtToolCheck | AtFileCheck => InputValidationError
  | AtSizeCheck => PayloadTooLarge
  | AtApiKeyCheck => ConfigMissing
  | AtGenerateContent | AtEmptyText => UpstreamModelError
  | AtJsonParse => SchemaParseError
  | AtFormData | AtPdfParse => UnexpectedError
  end.

(* ===================================================================== *)
(** ** The monad of the route: a trace of calls, and exceptions *)
(* ===================================================================== *)

Inductive Completion (A : Type) : Type :=
| Returned (a : A)
| Thrown (at_site : Site) (e : JsError).

Arguments Returned {A} a.
Arguments Thrown {A} at_site e.

Definition M (A : Type) : Type := list Event * Completion A.

Definition ret {A} (a : A) : M A := ([], Returned a).

Definition bind {A B} (m : M A) (f : A -> M B) : M B :=
  match m with
  | (tr, Returned a) => let (tr', r) := f a in (tr ++ tr', r)
  | (tr, Thrown s e) => (tr, Thrown s e)
  end.

Definition throw {A} (s : Site) (e : JsError) : M A := ([], Thrown s e).

(** [try { m } catch (e) { handler e }] *)
Definition try_catch {A} (m : M A) (handler : Site -> JsError -> M A) : M A :=
  match m with
  | (tr, Returned a) => (tr, Returned a)
  | (tr, Thrown s e) => let (tr', r) := handler s e in (tr ++ tr', r)
  end.

(** A call that leaves the module: the event is recorded whether the call
    returns or throws. *)
Definition call {A} (ev : Event) (s : Site) (r : JsError + A) : M A :=
  ([ev], match r with inl e => Thrown s e | inr a => Returned a end).

(** A call that leaves the module and cannot throw. *)
Definition note {A} (ev : Event) (a : A) : M A := ([ev], Returned a).

(** A library function that may throw and reaches nothing outside. *)
Definition attempt {A} (s : Site) (r : JsError + A) : M A :=
  ([], match r with inl e => Thrown s e | inr a => Returned a end).

Declare Scope route_scope.
Delimit Scope route_scope with route.

Notation "x <- m ;; k" := (bind m (fun x => k))
  (at level 61, m at next level, right associativity) : route_scope.
Notation "' pat <- m ;; k" := (bind m (fun x => match x with pat => k end))
  (at level 61, pat pattern, m at next level, right associativity)
  : route_scope.

(* ===================================================================== *)
(** ** The route *)
(* ===================================================================== *)

Section Route.

Variable w : World.

Local Open Scope route_scope.

(** [file.type === "application/pdf" ||
     file.name.toLowerCase().endsWith(".pdf")], the test both
    [extractTextFromFile] and [POST] make. *)
Definition isPdf (file : File) : bool :=
  JsString.eqb (File.type file) (js "application/pdf")
  || JsString.endsWith (JsString.toLowerCase (File.name file)) (js ".pdf").

(** The body of the [try] in [extractTextFromFile]. *)
Definition parsePdf (buffer : Buffer) : M jsstring :=
  call (EvPdfParse buffer) AtPdfParse (pdf_getText w buffer).

Definition decodeUtf8 (buffer : Buffer) : M jsstring :=
  note (EvUtf8Decode buffer) (toString_utf8 w buffer).

Definition extractTextFromFile (file : File) : M (jsstring * Buffer) :=
  let arrayBuffer := File.bytes file in
  if MAX_FILE_BYTES <? Buffer.byteLength arrayBuffer then
    throw AtSizeCheck
      (Error "File is too large for this demo environment. Please keep files under ~20 MB.")
  else
    let buffer := arrayBuffer in
    text <- (if isPdf file then
               try_catch (parsePdf buffer) (fun _ _ => ret [])
             else
               decodeUtf8 buffer) ;;
    ret (text, buffer).

(** A value that is a string or undefined, when it is truthy: neither
    undefined nor the empty string. *)
Definition truthy (x : option jsstring) : option jsstring :=
  match x with
  | Some s => if JsString.falsy s then None else Some s
  | None => None
  end.

(** [!x] for such a value. *)
Definition absent (x : option jsstring) : bool :=
  match truthy x with
  | Some _ => false
  | None => true
  end.

Definition user_content (p : list Part) : Content :=
  {| role := js "user"; parts := p |}.

(** The argument of [generateContent]: the prompt as one user message, the
    attachment, when there is one, as a second one. *)
Definition request_params
  (promptContext : jsstring) (imgData : option InlineData)
  : GenerateContentParameters :=
  let contents :=
    [user_content [TextPart (SYSTEM_PROMPT ++ [LF; LF] ++ promptContext)]] in
  let contents :=
    match imgData with
    | Some d => contents ++ [user_content [InlineDataPart d]]
    | None => contents
    end in
  {| model := js "models/gemini-2.5-flash";
     contents := contents;
     config :=
       {| responseMimeType := js "application/json";
          responseSchema := Schema.EARNINGS_SUMMARY_SCHEMA |} |}.

Definition summarizeEarningsCall
  (promptContext : jsstring) (imgData : option InlineData) : M Json :=
  match truthy (env_GEMINI_API_KEY w) with
  | None =>
      throw AtApiKeyCheck
        (Error "GEMINI_API_KEY is not configured. Please set it in your environment.")
  | Some apiKey =>
      let params := request_params promptContext imgData in
      response_text <- call (EvGenerateContent apiKey params) AtGenerateContent
                         (generateContent w apiKey params) ;;
      match truthy response_text with
      | None => throw AtEmptyText (Error "No text returned from Gemini model.")
      | Some jsonText =>
          json <- attempt AtJsonParse (JSON_parse w jsonText) ;;
          ret json
      end
  end.

(** [{ error: msg }] *)
Definition error_body (msg : jsstring) : Json :=
  JObject [(js "error", JString msg)].

(** [tool !== "earnings_summary"] *)
Definition tool_mismatch (tool : option FormDataEntryValue) : bool :=
  match tool with
  | Some (EntryString s) => negb (JsString.eqb s (js "earnings_summary"))
  | _ => true
  end.

(** The prompt of the scanned-document branch. *)
Definition scanned_prompt : jsstring :=
  js "Please analyze the attached PDF document. It appears to be a scanned transcript.".

(** The template literal [userPrompt] of the text branch. *)
Definition userPrompt (trimmedText : jsstring) : jsstring :=
  [LF] ++ js "Transcript text (may be truncated for length):" ++ [LF; LF]
  ++ [dquote; dquote; dquote] ++ trimmedText ++ [dquote; dquote; dquote]
  ++ [LF].

(** [isPdf && (!text || text.trim().length < 500)] *)
Definition isScanned (file : File) (text : jsstring) : bool :=
  isPdf file
  && (JsString.falsy text || (JsString.length (JsString.trim text) <? 500)).

(** What the handler answers with: the response, and the site where it gave
    up when the response is a failure. *)
Definition Reply : Type := option Site * Response.

(** The branch taken when [isScanned] holds. *)
Definition scanned_branch (buffer : Buffer) : M Reply :=
  let base64Data := Buffer.toString_base64 buffer in
  summary <- summarizeEarningsCall scanned_prompt
               (Some {| mimeType := js "application/pdf"; data := base64Data |}) ;;
  ret (None, NextResponse_json summary 200).

(** The branch taken otherwise. *)
Definition text_branch (text : jsstring) : M Reply :=
  let trimmedText := JsString.slice text 0 MAX_CHARS in
  summary <- summarizeEarningsCall (userPrompt trimmedText) None ;;
  ret (None, NextResponse_json summary 200).

(** The body of the [try] in [POST]. *)
Definition POST_try (req : NextRequest) : M Reply :=
  formData <- attempt AtFormData (formData req) ;;
  let tool := FormData_get formData (js "tool") in
  let file := FormData_get formData (js "file") in
  if tool_mismatch tool then
    ret (Some AtToolCheck,
         NextResponse_json
           (error_body (js "Unsupported tool. Only 'earnings_summary' is implemented."))
           400)
  else
    match file with
    | Some (EntryFile file) =>
        '(text, buffer) <- extractTextFromFile file ;;
        if isScanned file text then scanned_branch buffer
        else text_branch text
    | _ =>
        ret (Some AtFileCheck,
             NextResponse_json
               (error_body (js "No file provided. Please attach a document."))
               400)
    end.

(** [error?.message ?? "Unexpected error ..."] *)
Definition error_message (error : JsError) : jsstring :=
  match message error with
  | Some msg => msg
  | None =>
      js "Unexpected error while processing the document. Please try again."
  end.

(** The [catch] of [POST]. *)
Definition POST_catch (s : Site) (error : JsError) : M Reply :=
  ret (Some s, NextResponse_json (error_body (error_message error)) 500).

Definition POST (req : NextRequest) : M Reply :=
  try_catch (POST_try req) POST_catch.

End Route.

(* ===================================================================== *)
(** ** Vocabulary of the properties *)
(* ===================================================================== *)

(** The file of a request that passes both input checks of [POST]. *)
Definition accepted_upload (req : NextRequest) : option File :=
  match formData req with
  | inr fd =>
      if tool_mismatch (FormData_get fd (js "tool")) then None
      else
        match FormData_get fd (js "file") with
        | Some (EntryFile f) => Some f
        | _ => None
        end
  | inl _ => None
  end.

(** The file field of a request, whatever its tool selector. *)
Definition uploaded_file (req : NextRequest) : option File :=
  match formData req with
  | inr fd =>
      match FormData_get fd (js "file") with
      | Some (EntryFile f) => Some f
      | _ => None
      end
  | inl _ => None
  end.

(** The request the portal page submits for a file. *)
Definition page_request (f : File) : NextRequest :=
  {| formData :=
       inr [(js "file", EntryFile f);
            (js "tool", EntryString (js "earnings_summary"))] |}.

(** A computation that runs after the calls of [tr]. *)
Definition after {A} (tr : list Event) (m : M A) : M A :=
  (tr ++ fst m, snd m).

(** The requests sent to the model in a trace. *)
Definition model_calls (tr : list Event) : list GenerateContentParameters :=
  flat_map (fun ev =>
              match ev with
              | EvGenerateContent _ p => [p]
              | _ => []
              end) tr.

(** The buffers handed to the UTF-8 decoder in a trace. *)
Definition decoded_buffers (tr : list Event) : list Buffer :=
  flat_map (fun ev => match ev with EvUtf8Decode b => [b] | _ => [] end) tr.

(** The binary attachments of a model request. *)
Definition attachments (p : GenerateContentParameters) : list InlineData :=
  flat_map (fun c =>
              flat_map (fun part =>
                          match part with
                          | InlineDataPart d => [d]
                          | TextPart _ => []
                          end) (parts c)) (contents p).

(** The texts of a model request. *)
Definition texts (p : GenerateContentParameters) : list jsstring :=
  flat_map (fun c =>
              flat_map (fun part =>
                          match part with
                          | TextPart t => [t]
                          | InlineDataPart _ => []
                          end) (parts c)) (contents p).

(** The reply of [POST] to each way the model call can end: the summary
    with the default status, or the message of the error with status 500. *)
Definition reply_of (c : Completion Json) : Reply :=
  match c with
  | Returned summary => (None, NextResponse_json summary 200)
  | Thrown s e => (Some s, NextResponse_json (error_body (error_message e)) 500)
  end.

Definition answer (m : M Json) : M Reply := (fst m, Returned (reply_of (snd m))).

(** Taking the binary path: the model is called with the scanned-document
    prompt and the bytes of [buffer] as an attachment. *)
Definition binary_path (w : World) (buffer : Buffer) : M Reply :=
  answer
    (summarizeEarningsCall w scanned_prompt
       (Some {| mimeType := js "application/pdf";
                data := Buffer.toString_base64 buffer |})).

(** Taking the text path: the model is called with the truncated text in
    the prompt and no attachment. *)
Definition text_path (w : World) (text : jsstring) : M Reply :=
  answer
    (summarizeEarningsCall w
       (userPrompt (JsString.slice text 0 MAX_CHARS)) None).

(** A trace in which the model is called once, with one attachment of
    media type [mime] that holds the bytes [b], next to the fixed prompt of
    the scanned-document branch. *)
Definition sends_bytes (tr : list Event) (b : Buffer) (mime : jsstring) : Prop :=
  exists p d,
    model_calls tr = [p] /\ attachments p = [d]
    /\ mimeType d = mime /\ Buffer.from_base64 (data d) = Some b
    /\ texts p = [SYSTEM_PROMPT ++ [LF; LF] ++ scanned_prompt].

(** A trace in which the model is called once, with no attachment and the
    prompt built around [t]. *)
Definition sends_text (tr : list Event) (t : jsstring) : Prop :=
  exists p,
    model_calls tr = [p] /\ attachments p = []
    /\ texts p = [SYSTEM_PROMPT ++ [LF; LF] ++ userPrompt t].

(** The text [extractTextFromFile] ends with for a PDF: the parser's, or the
    empty string when the parser threw. *)
Definition pdf_text (w : World) (buffer : Buffer) : jsstring :=
  match pdf_getText w buffer with
  | inr t => t
  | inl _ => []
  end.

(** The status the handler pairs with each error kind. *)
Definition status_of_kind (k : ErrorKind) : Z :=
  match k with
  | InputValidationError => 400
  | _ => 500
  end.

Definition client_error_class (st : Z) : bool := (400 <=? st) && (st <? 500).
Definition server_error_class (st : Z) : bool := (500 <=? st) && (st <? 600).

(** A reply whose status is the one of the kind of its site, and whose body,
    on failure, is an object with the one field [error]. *)
Definition classified (r : Reply) : Prop :=
  match fst r with
  | None => status (snd r) = 200
  | Some s =>
      status (snd r) = status_of_kind (kind_of_site s)
      /\ (exists msg, body (snd r) = error_body msg)
      /\ s <> AtPdfParse
  end.

(** A name that ends in [.pdf], in any mix of cases. *)
Definition ends_in_pdf (name : jsstring) : Prop :=
  exists stem c1 c2 c3,
    name = stem ++ [46; c1; c2; c3]%N
    /\ (c1 = 112 \/ c1 = 80)%N
    /\ (c2 = 100 \/ c2 = 68)%N
    /\ (c3 = 102 \/ c3 = 70)%N.

(** The error messages of the route. *)
Definition msg_too_large : jsstring :=
  js "File is too large for this demo environment. Please keep files under ~20 MB.".
Definition msg_no_key : jsstring :=
  js "GEMINI_API_KEY is not configured. Please set it in your environment.".
Definition msg_tool : jsstring :=
  js "Unsupported tool. Only 'earnings_summary' is implemented.".
Definition msg_no_file : jsstring :=
  js "No file provided. Please attach a document.".

(* ===================================================================== *)
(** ** Sample worlds and uploads *)
(* ===================================================================== *)

Module Samples.

(** Decoding of bytes below 128, where UTF-8 and ASCII agree. *)
Definition ascii_decode (b : Buffer) : jsstring := List.map Byte.to_N b.

Definition ascii_bytes (s : string) : Buffer :=
  List.map byte_of_ascii (list_ascii_of_string s).

Arguments ascii_bytes s%_string.

(** The payload [{"tone":"optimistic"}]. *)
Definition tone_only_text : jsstring :=
  js "{" ++ [dquote] ++ js "tone" ++ [dquote] ++ js ":" ++ [dquote]
  ++ js "optimistic" ++ [dquote] ++ js "}".

Definition tone_only : Json :=
  JObject [(js "tone", JString (js "optimistic"))].

(** [JSON.parse] on the one payload the sample model answers with. *)
Definition parse_tone_only (t : jsstring) : JsError + Json :=
  if JsString.eqb t tone_only_text then inr tone_only
  else inl (Error "Unexpected token in JSON").

Definition api_key : jsstring := js "test-key".

(** A configured world: the model answers every request with the tone-only
    payload, and the PDF parser yields [pdf]. *)
Definition world (pdf : JsError + jsstring) : World :=
  {| env_GEMINI_API_KEY := Some api_key;
     pdf_getText := fun _ => pdf;
     toString_utf8 := ascii_decode;
     generateContent := fun _ _ => inr (Some tone_only_text);
     JSON_parse := parse_tone_only |}.

(** The same world without the credential. *)
Definition world_without_key : World :=
  {| env_GEMINI_API_KEY := None;
     pdf_getText := fun _ => inl (Error "Invalid PDF structure");
     toString_utf8 := ascii_decode;
     generateContent := fun _ _ => inr (Some tone_only_text);
     JSON_parse := parse_tone_only |}.

Definition parse_failure : JsError + jsstring :=
  inl (Error "Invalid PDF structure").

(** A text of [n] spaces. *)
Definition blank (n : Z) : jsstring := repeat 32%N (Z.to_nat n).

(** A text of [n] letters. *)
Definition letters (n : Z) : jsstring := repeat 97%N (Z.to_nat n).

Definition transcript : File :=
  {| File.name := js "call.txt";
     File.type := js "text/plain";
     File.bytes := ascii_bytes "Revenue grew 12% and margins expanded." |}.

(** A PDF upload that declares the PDF media type. *)
Definition report : File :=
  {| File.name := js "report.pdf";
     File.type := js "application/pdf";
     File.bytes := ascii_bytes "%PDF-1.7 scanned pages" |}.

(** A PDF upload recognised by its name only. *)
Definition scan : File :=
  {| File.name := js "Scan.PDF";
     File.type := js "application/octet-stream";
     File.bytes := ascii_bytes "%PDF-1.7 scanned pages" |}.

(** One byte more than the server accepts. *)
Definition oversized_bytes : Buffer :=
  repeat x00 (Z.to_nat (MAX_FILE_BYTES + 1)).

Definition oversized : File :=
  {| File.name := js "deck.pdf";
     File.type := js "application/pdf";
     File.bytes := oversized_bytes |}.

(** A request for a tool the route does not have. *)
Definition other_tool_request : NextRequest :=
  {| formData :=
       inr [(js "file", EntryFile transcript);
            (js "tool", EntryString (js "financial_statements"))] |}.

End Samples.

(* ===================================================================== *)
(** ** The portal page *)
(* ===================================================================== *)

Module Page.

(** The [ApiState] of the page, by its [status]. *)
Inductive ApiState : Type :=
| StatusIdle
| StatusSubmitting
| StatusSuccess (data : Json)
| StatusError (message : jsstring).

(** A [Response] of [fetch], as far as the page reads it: [response.ok],
    [await response.text()] and [await response.json()]. *)
Record FetchResponse : Type :=
  { ok : bool; text : JsError + jsstring; json : JsError + Json }.

(** What the page reaches outside: [fetch("/api/analyze", { method: "POST",
    body })], and the text the template literal gives for
    [Math.round(file.size / 1024 / 1024 * 10) / 10], a floating-point
    computation. *)
Record Browser : Type :=
  { fetch : FormData -> JsError + FetchResponse;
    size_in_MB : Z -> jsstring }.

Definition MAX_MB : Z := 4.

(** [file.size] *)
Definition size (file : File) : Z := Buffer.byteLength (File.bytes file).

(** One run of [handleSubmit]: the body it gave to [fetch], if it called
    it, and the states it set, in order. *)
Record Submission : Type :=
  { request : option FormData; updates : list ApiState }.

Definition msg_attach : jsstring :=
  js "Please attach an earnings call transcript or commentary file.".

(** The template literal of the size check; [${MAX_MB}] reads [4]. *)
Definition msg_size (b : Browser) (file : File) : jsstring :=
  js "File is too large (" ++ size_in_MB b (size file)
  ++ js " MB). Please upload a file smaller than " ++ js "4"
  ++ js " MB for this demo.".

(** [error?.message ?? "Something went wrong ..."] *)
Definition catch_message (error : JsError) : jsstring :=
  match message error with
  | Some msg => msg
  | None =>
      js "Something went wrong while analyzing the document. Please try again."
  end.

(** The [try] of [handleSubmit], and its [catch]: the state it ends in. *)
Definition settle (r : JsError + FetchResponse) : ApiState :=
  match r with
  | inl error => StatusError (catch_message error)
  | inr response =>
      if negb (ok response) then
        match text response with
        | inr text =>
            StatusError
              (catch_message
                 {| message :=
                      Some (if JsString.falsy text then js "Request failed"
                            else text) |})
        | inl error => StatusError (catch_message error)
        end
      else
        match json response with
        | inr data => StatusSuccess data
        | inl error => StatusError (catch_message error)
        end
  end.

Definition handleSubmit (b : Browser) (file : option File) : Submission :=
  match file with
  | None => {| request := None; updates := [StatusError msg_attach] |}
  | Some file =>
      if MAX_MB * 1024 * 1024 <? size file then
        {| request := None; updates := [StatusError (msg_size b file)] |}
      else
        let formData :=
          [(js "file", EntryFile file);
           (js "tool", EntryString (js "earnings_summary"))] in
        {| request := Some formData;
           updates := [StatusSubmitting; settle (fetch b formData)] |}
  end.

(** The elements [SummaryView] builds, as far as its two helpers go: a
    string child, a child that renders nothing ([null], [undefined]), or an
    element with its [key], [className], [style] and children. *)
#[warnings="-register-all"]
Inductive Jsx : Type :=
| JsxText (s : jsstring)
| JsxNull
| JsxElement (tag : string) (key : option Z) (className : option string)
    (style : list (string * Z)) (children : list Jsx).

Record BulletPoint : Type :=
  { summary : jsstring; supporting_quote : option jsstring }.

Record ForwardGuidance : Type :=
  { revenue : option jsstring;
    margin : option jsstring;
    capex : option jsstring;
    other : option jsstring }.

(** [{x}] for a string that may be null or undefined. *)
Definition child (x : option jsstring) : Jsx :=
  match x with
  | Some s => JsxText s
  | None => JsxNull
  end.

(** [{x && e}]: the falsy [x] itself, or [e]. *)
Definition and_then (x : option jsstring) (e : Jsx) : Jsx :=
  match x with
  | None => JsxNull
  | Some s => if JsString.falsy s then JsxText s else e
  end.

(** [!x] for such a string. *)
Definition blank (x : option jsstring) : bool := absent x.

Definition hint (label : jsstring) : Jsx :=
  JsxElement "p" None (Some "hint"%string) [] [JsxText label].

Definition list_style : list (string * Z) :=
  [("paddingLeft"%string, 18); ("margin"%string, 0)].

(** [items.map((item, index) => ...)] *)
Fixpoint map_indexed {A B} (f : A -> Z -> B) (index : Z) (items : list A)
  : list B :=
  match items with
  | [] => []
  | item :: rest => f item index :: map_indexed f (index + 1) rest
  end.

Definition bullet (item : BulletPoint) (index : Z) : Jsx :=
  JsxElement "li" (Some index) None []
    [JsxText (summary item);
     and_then (supporting_quote item)
       (JsxElement "div" None (Some "quote"%string) []
          [JsxText [8220%N]; child (supporting_quote item);
           JsxText [8221%N]])].

(** [items] is [None] when the summary has no such field. *)
Definition listOrFallback
  (items : option (list BulletPoint)) (emptyLabel : jsstring) : Jsx :=
  match items with
  | None => hint emptyLabel
  | Some [] => hint emptyLabel
  | Some items =>
      JsxElement "ul" None None list_style (map_indexed bullet 0 items)
  end.

Definition guidance_item (label : string) (value : option jsstring) : Jsx :=
  and_then value
    (JsxElement "li" None None []
       [JsxElement "strong" None None [] [JsxText (js label)];
        JsxText (js " "); child value]).

Definition guidanceOrFallback (forward_guidance : option ForwardGuidance)
  : Jsx :=
  match forward_guidance with
  | None =>
      hint (js "No explicit forward guidance was extracted from this document.")
  | Some g =>
      if blank (revenue g) && blank (margin g) && blank (capex g)
         && blank (other g)
      then
        hint (js "No explicit forward guidance was extracted from this document.")
      else
        JsxElement "ul" None None list_style
          [guidance_item "Revenue:" (revenue g);
           guidance_item "Margin:" (margin g);
           guidance_item "Capex:" (capex g);
           guidance_item "Other:" (other g)]
  end.

End Page.

(* ===================================================================== *)
(** ** Vocabulary of the page properties *)
(* ===================================================================== *)

(** [response.ok]: a status from 200 to 299. *)
Definition status_ok (st : Z) : bool := (200 <=? st) && (st <=? 299).

(** A response of the route as [fetch] hands it to the page:
    [NextResponse.json] serializes the body with [stringify]
    ([JSON.stringify]), [response.text()] gives that text and
    [response.json()] reads it with [parse].  Nothing is assumed of the two:
    what the page reads need not be the value the route serialized. *)
Definition deliver
  (stringify : Json -> jsstring) (parse : jsstring -> JsError + Json)
  (r : Response) : Page.FetchResponse :=
  {| Page.ok := status_ok (status r);
     Page.text := inr (stringify (body r));
     Page.json := parse (stringify (body r)) |}.

(** [fetch] answered by the route in the world [w]. *)
Definition served
  (stringify : Json -> jsstring) (parse : jsstring -> JsError + Json)
  (w : World) (fd : FormData) : JsError + Page.FetchResponse :=
  match snd (POST w {| formData := inr fd |}) with
  | Returned reply => inr (deliver stringify parse (snd reply))
  | Thrown _ e => inl e
  end.

(** A state the page rests in after a submission. *)
Definition settled (st : Page.ApiState) : bool :=
  match st with
  | Page.StatusSuccess _ | Page.StatusError _ => true
  | Page.StatusIdle | Page.StatusSubmitting => false
  end.

(** The children React renders: neither [null] nor the empty string. *)
Definition rendered (c : Page.Jsx) : bool :=
  match c with
  | Page.JsxNull => false
  | Page.JsxText s => negb (JsString.falsy s)
  | Page.JsxElement _ _ _ _ _ => true
  end.

Definition rendered_children (e : Page.Jsx) : list Page.Jsx :=
  match e with
  | Page.JsxElement _ _ _ _ children => filter rendered children
  | _ => []
  end.

(** The four guidance fields with their labels, in the order of the view. *)
Definition guidance_fields (g : Page.ForwardGuidance)
  : list (string * option jsstring) :=
  [("Revenue:"%string, Page.revenue g); ("Margin:"%string, Page.margin g);
   ("Capex:"%string, Page.capex g); ("Other:"%string, Page.other g)].

(** The guidance fields that hold a non-empty string, with their values. *)
Definition filled_fields (g : Page.ForwardGuidance) : list (string * jsstring) :=
  flat_map (fun lv =>
              match truthy (snd lv) with
              | Some v => [(fst lv, v)]
              | None => []
              end) (guidance_fields g).

(** The list item of a filled guidance field: its label in bold, a space,
    its value. *)
Definition filled_item (lv : string * jsstring) : Page.Jsx :=
  Page.JsxElement "li" None None []
    [Page.JsxElement "strong" None None [] [Page.JsxText (js (fst lv))];
     Page.JsxText (js " "); Page.JsxText (snd lv)].

Definition no_guidance : jsstring :=
  js "No explicit forward guidance was extracted from this document.".

(** The block that shows a quote between curly quotation marks. *)
Definition quote_block (q : jsstring) : Page.Jsx :=
  Page.JsxElement "div" None (Some "quote"%string) []
    [Page.JsxText [8220%N]; Page.JsxText q; Page.JsxText [8221%N]].

(** The form the page posts for a file. *)
Definition page_form (f : File) : FormData :=
  [(js "file", EntryFile f); (js "tool", EntryString (js "earnings_summary"))].

(** Worlds that differ at most in what the PDF parser answers. *)
Definition same_but_parser (w1 w2 : World) : Prop :=
  env_GEMINI_API_KEY w1 = env_GEMINI_API_KEY w2
  /\ toString_utf8 w1 = toString_utf8 w2
  /\ generateContent w1 = generateContent w2
  /\ JSON_parse w1 = JSON_parse w2.

Module MoreSamples.

(** A world whose model call throws. *)
Definition world_model_down : World :=
  {| env_GEMINI_API_KEY := Some Samples.api_key;
     pdf_getText := fun _ => Samples.parse_failure;
     toString_utf8 := Samples.ascii_decode;
     generateContent := fun _ _ => inl (Error "503 Service Unavailable");
     JSON_parse := Samples.parse_tone_only |}.

(** [JSON.stringify] on the one body of the sample runs, the tone-only
    summary. *)
Definition sample_stringify (j : Json) : jsstring := Samples.tone_only_text.

Definition sample_browser (w : World) : Page.Browser :=
  {| Page.fetch := served sample_stringify Samples.parse_tone_only w;
     Page.size_in_MB := fun _ => js "4.1" |}.

(** A browser whose every request is answered with the tone-only summary,
    whatever serves it. *)
Definition answering_browser : Page.Browser :=
  {| Page.fetch :=
       fun _ => inr {| Page.ok := true;
                       Page.text := inr Samples.tone_only_text;
                       Page.json := inr Samples.tone_only |};
     Page.size_in_MB := fun _ => js "4.1" |}.

Definition guidance : Page.ForwardGuidance :=
  {| Page.revenue := Some (js "FY25 revenue growth of 10-12%");
     Page.margin := None;
     Page.capex := Some [];
     Page.other := Some (js "Two new plants by Q3") |}.

Definition bullets : list Page.BulletPoint :=
  [{| Page.summary := js "Order book at record high";
      Page.supporting_quote := Some (js "our order book has never been stronger") |};
   {| Page.summary := js "Net debt reduced"; Page.supporting_quote := None |}].

End MoreSamples.

(* ===================================================================== *)
(** ** Facts about strings *)
(* ===================================================================== *)

Module JsStringFacts.

Lemma eqb_refl (s : jsstring) : JsString.eqb s s = true.
Proof.
  induction s as [|c s IH]; simpl; [reflexivity|].
  now rewrite N.eqb_refl, IH.
Qed.

Lemma eqb_eq (s t : jsstring) : JsString.eqb s t = true <-> s = t.
Proof.
  split; [|intros ->; apply eqb_refl].
  revert t. induction s as [|c s IH]; intros [|d t]; simpl; try easy.
  intros H. apply andb_true_iff in H. destruct H as [Hc Hs].
  apply N.eqb_eq in Hc. apply IH in Hs. now subst.
Qed.

Lemma length_nonneg (s : jsstring) : 0 <= JsString.length s.
Proof. unfold JsString.length. lia. Qed.

Lemma length_app (s t : jsstring) :
  JsString.length (s ++ t) = JsString.length s + JsString.length t.
Proof. unfold JsString.length. rewrite List.length_app. lia. Qed.

(** A slice from the start is a prefix. *)
Lemma slice_from_start (s : jsstring) (n : Z) :
  0 <= n -> JsString.slice s 0 n = firstn (Z.to_nat n) s.
Proof.
  intros Hn. unfold JsString.slice.
  pose proof (length_nonneg s) as Hlen.
  assert (JsString.clamp_index (JsString.length s) 0 = 0) as ->.
  { unfold JsString.clamp_index. change (0 <? 0) with false. cbv iota. lia. }
  assert (JsString.clamp_index (JsString.length s) n
          = Z.min n (JsString.length s)) as ->.
  { unfold JsString.clamp_index.
    now rewrite (proj2 (Z.ltb_ge n 0) Hn). }
  rewrite Z.sub_0_r. change (skipn (Z.to_nat 0) s) with s.
  destruct (Z.min n (JsString.length s) <=? 0) eqn:Hempty.
  - apply Z.leb_le in Hempty.
    destruct (Z.eq_dec n 0) as [->|Hn0]; [reflexivity|].
    assert (JsString.length s = 0) as Hs by lia.
    unfold JsString.length in Hs. destruct s; [|simpl in Hs; lia].
    now rewrite firstn_nil.
  - destruct (Z.le_ge_cases n (JsString.length s)) as [Hle|Hge].
    + now rewrite Z.min_l.
    + rewrite Z.min_r by lia.
      unfold JsString.length in *. rewrite Nat2Z.id.
      rewrite firstn_all. symmetry. apply firstn_all2. lia.
Qed.

Lemma trimStart_length (s : jsstring) :
  (List.length (JsString.trimStart s) <= List.length s)%nat.
Proof.
  induction s as [|c s IH]; simpl; [lia|].
  destruct (JsString.is_whitespace c); simpl; lia.
Qed.

Lemma trim_length (s : jsstring) :
  JsString.length (JsString.trim s) <= JsString.length s.
Proof.
  unfold JsString.trim, JsString.trimEnd, JsString.length.
  rewrite List.length_rev.
  pose proof (trimStart_length (rev (JsString.trimStart s))) as H1.
  rewrite List.length_rev in H1.
  pose proof (trimStart_length s). lia.
Qed.

Lemma endsWith_app (stem suffix : jsstring) :
  JsString.endsWith (stem ++ suffix) suffix = true.
Proof.
  unfold JsString.endsWith. rewrite length_app.
  pose proof (length_nonneg stem) as Hs.
  destruct (_ <? 0) eqn:Hneg; [lia|].
  replace (JsString.length stem + JsString.length suffix
           - JsString.length suffix) with (JsString.length stem) by lia.
  unfold JsString.length. rewrite Nat2Z.id.
  rewrite skipn_app, skipn_all, Nat.sub_diag. simpl. apply eqb_refl.
Qed.

End JsStringFacts.

(* ===================================================================== *)
(** ** Facts about the transport encoding *)
(* ===================================================================== *)

Module Base64Facts.
Import Buffer.

Lemma digits_ok : forallb digit_ok (List.map N.of_nat (seq 0 64)) = true.
Proof. vm_compute. reflexivity. Qed.

Lemma digit_ok_below (i : N) : (i < 64)%N -> digit_ok i = true.
Proof.
  intros Hi.
  apply (proj1 (forallb_forall digit_ok _) digits_ok).
  rewrite <- (N2Nat.id i). apply in_map, in_seq. lia.
Qed.

Lemma undigit_digit (i : N) : (i < 64)%N -> undigit (digit i) = Some i.
Proof.
  intros Hi. pose proof (digit_ok_below i Hi) as H. unfold digit_ok in H.
  destruct (undigit (digit i)) as [j|]; [|discriminate].
  apply andb_true_iff in H. destruct H as [H _].
  apply N.eqb_eq in H. now subst.
Qed.

Lemma digit_not_pad (i : N) : (i < 64)%N -> (digit i =? pad)%N = false.
Proof.
  intros Hi. pose proof (digit_ok_below i Hi) as H. unfold digit_ok in H.
  destruct (undigit (digit i)); [|discriminate].
  apply andb_true_iff in H. destruct H as [_ H].
  now apply negb_true_iff in H.
Qed.

Ltac euclid := zify; Z.to_euclidean_division_equations; lia.

Lemma byte_bound (x : byte) : (Byte.to_N x < 256)%N.
Proof. pose proof (Byte.to_N_bounded x). lia. Qed.

Lemma decode_group_3 (x y z : byte) :
  let n := Byte.to_N x in
  let m := Byte.to_N y in
  let k := Byte.to_N z in
  decode_group (digit (n / 4)) (digit ((n mod 4) * 16 + m / 16))
    (digit ((m mod 16) * 4 + k / 64)) (digit (k mod 64)) = Some [x; y; z].
Proof.
  intros n m k.
  pose proof (byte_bound x) as Hx. pose proof (byte_bound y) as Hy.
  pose proof (byte_bound z) as Hz. fold n in Hx. fold m in Hy. fold k in Hz.
  unfold decode_group.
  rewrite !undigit_digit, !digit_not_pad by euclid.
  replace (n / 4 * 4 + (n mod 4 * 16 + m / 16) / 16)%N with n by euclid.
  replace ((n mod 4 * 16 + m / 16) mod 16 * 16 + (m mod 16 * 4 + k / 64) / 4)%N
    with m by euclid.
  replace ((m mod 16 * 4 + k / 64) mod 4 * 64 + k mod 64)%N with k by euclid.
  unfold n, m, k. now rewrite !Byte.of_to_N.
Qed.

Lemma decode_group_2 (x y : byte) :
  let n := Byte.to_N x in
  let m := Byte.to_N y in
  decode_group (digit (n / 4)) (digit ((n mod 4) * 16 + m / 16))
    (digit ((m mod 16) * 4)) pad = Some [x; y].
Proof.
  intros n m.
  pose proof (byte_bound x) as Hx. pose proof (byte_bound y) as Hy.
  fold n in Hx. fold m in Hy.
  unfold decode_group.
  rewrite !undigit_digit, !digit_not_pad by euclid.
  replace (n / 4 * 4 + (n mod 4 * 16 + m / 16) / 16)%N with n by euclid.
  replace ((n mod 4 * 16 + m / 16) mod 16 * 16 + (m mod 16 * 4) / 4)%N
    with m by euclid.
  unfold n, m. rewrite !Byte.of_to_N. now rewrite N.eqb_refl.
Qed.

Lemma decode_group_1 (x : byte) :
  let n := Byte.to_N x in
  decode_group (digit (n / 4)) (digit ((n mod 4) * 16)) pad pad = Some [x].
Proof.
  intros n.
  pose proof (byte_bound x) as Hx. fold n in Hx.
  unfold decode_group.
  rewrite !undigit_digit by euclid.
  replace (n / 4 * 4 + (n mod 4 * 16) / 16)%N with n by euclid.
  unfold n. rewrite !Byte.of_to_N. now rewrite N.eqb_refl.
Qed.

(** Induction on a buffer three bytes at a time, the way the encoder
    consumes it. *)
Lemma buffer_ind3 (P : Buffer -> Prop) :
  P [] -> (forall x, P [x]) -> (forall x y, P [x; y]) ->
  (forall x y z rest, P rest -> P (x :: y :: z :: rest)) ->
  forall b, P b.
Proof.
  intros H0 H1 H2 H3.
  fix IH 1.
  intros [|x [|y [|z rest]]];
    [apply H0 | apply H1 | apply H2 | apply H3, IH].
Qed.

(** The encoded attachment still holds the bytes: decoding gives them
    back. *)
Lemma from_base64_toString (b : Buffer) :
  from_base64 (toString_base64 b) = Some b.
Proof.
  induction b as [|x|x y|x y z rest IH] using buffer_ind3.
  - reflexivity.
  - cbn [toString_base64 from_base64]. now rewrite decode_group_1.
  - cbn [toString_base64 from_base64]. now rewrite decode_group_2.
  - cbn [toString_base64 from_base64 app].
    now rewrite decode_group_3, IH.
Qed.

End Base64Facts.

(* ===================================================================== *)
(** ** Facts about the route *)
(* ===================================================================== *)

Section RouteFacts.

Variable w : World.

Lemma truthy_some (x : option jsstring) (k : jsstring) :
  x = Some k -> JsString.falsy k = false -> truthy x = Some k.
Proof. intros -> Hk. unfold truthy. now rewrite Hk. Qed.

Lemma absent_cases (x : option jsstring) :
  absent x = true \/ exists k, x = Some k /\ JsString.falsy k = false.
Proof.
  unfold absent, truthy. destruct x as [k|]; [|now left].
  destruct (JsString.falsy k) eqn:Hk; [now left|right; now exists k].
Qed.

Lemma extract_oversized (f : File) :
  MAX_FILE_BYTES < Buffer.byteLength (File.bytes f) ->
  extractTextFromFile w f = ([], Thrown AtSizeCheck (Error
    "File is too large for this demo environment. Please keep files under ~20 MB.")).
Proof.
  intros H. unfold extractTextFromFile.
  now rewrite (proj2 (Z.ltb_lt _ _) H).
Qed.

Lemma extract_plain (f : File) :
  Buffer.byteLength (File.bytes f) <= MAX_FILE_BYTES ->
  isPdf f = false ->
  extractTextFromFile w f
  = ([EvUtf8Decode (File.bytes f)],
     Returned (toString_utf8 w (File.bytes f), File.bytes f)).
Proof.
  intros H Hpdf. unfold extractTextFromFile.
  rewrite (proj2 (Z.ltb_ge _ _) H), Hpdf. reflexivity.
Qed.

Lemma extract_pdf (f : File) :
  Buffer.byteLength (File.bytes f) <= MAX_FILE_BYTES ->
  isPdf f = true ->
  extractTextFromFile w f
  = ([EvPdfParse (File.bytes f)],
     Returned (pdf_text w (File.bytes f), File.bytes f)).
Proof.
  intros H Hpdf. unfold extractTextFromFile, pdf_text, parsePdf, call.
  rewrite (proj2 (Z.ltb_ge _ _) H), Hpdf.
  destruct (pdf_getText w (File.bytes f)); reflexivity.
Qed.

Lemma POST_try_accepted (req : NextRequest) (f : File) :
  accepted_upload req = Some f ->
  POST_try w req
  = bind (extractTextFromFile w f)
      (fun r => if isScanned f (fst r)
                then scanned_branch w (snd r)
                else text_branch w (fst r)).
Proof.
  unfold accepted_upload, POST_try, attempt, bind. intros H.
  destruct (formData req) as [e|fd]; [discriminate|].
  destruct (tool_mismatch _); [discriminate|].
  destruct (FormData_get fd (js "file")) as [[s|file]|]; try discriminate.
  injection H as ->.
  destruct (extractTextFromFile w f) as [tr [[text buffer]|s e]];
    [|reflexivity].
  cbn [fst snd].
  destruct (if isScanned f text then _ else _) as [tr' r]. reflexivity.
Qed.

Lemma summarize_no_key (p : jsstring) (i : option InlineData) :
  absent (env_GEMINI_API_KEY w) = true ->
  summarizeEarningsCall w p i
  = ([], Thrown AtApiKeyCheck (Error
      "GEMINI_API_KEY is not configured. Please set it in your environment.")).
Proof.
  unfold absent, summarizeEarningsCall.
  destruct (truthy (env_GEMINI_API_KEY w)); [discriminate|reflexivity].
Qed.

Lemma summarize_trace (p : jsstring) (i : option InlineData) (k : jsstring) :
  env_GEMINI_API_KEY w = Some k -> JsString.falsy k = false ->
  fst (summarizeEarningsCall w p i)
  = [EvGenerateContent k (request_params p i)].
Proof.
  intros Hk Hf. unfold summarizeEarningsCall.
  rewrite (truthy_some _ k Hk Hf).
  unfold call, bind, attempt, throw, ret.
  destruct (generateContent w k _) as [e|t]; [reflexivity|].
  destruct (truthy t) as [jsonText|]; [|reflexivity].
  destruct (JSON_parse w jsonText); reflexivity.
Qed.

Lemma summarize_answer
  (p : jsstring) (i : option InlineData) (k t : jsstring) (j : Json) :
  env_GEMINI_API_KEY w = Some k -> JsString.falsy k = false ->
  generateContent w k (request_params p i) = inr (Some t) ->
  JsString.falsy t = false ->
  JSON_parse w t = inr j ->
  summarizeEarningsCall w p i
  = ([EvGenerateContent k (request_params p i)], Returned j).
Proof.
  intros Hk Hf Hg Ht Hj. unfold summarizeEarningsCall.
  rewrite (truthy_some _ k Hk Hf).
  unfold call, bind, attempt, ret.
  rewrite Hg, (truthy_some _ t eq_refl Ht), Hj. reflexivity.
Qed.

(** The sites a model call can stop at. *)
Lemma summarize_sites (p : jsstring) (i : option InlineData) s e :
  snd (summarizeEarningsCall w p i) = Thrown s e ->
  s = AtApiKeyCheck \/ s = AtGenerateContent \/ s = AtEmptyText
  \/ s = AtJsonParse.
Proof.
  unfold summarizeEarningsCall, call, bind, attempt, throw, ret.
  destruct (truthy (env_GEMINI_API_KEY w)) as [k|]; simpl.
  2: { intros H; injection H as <- _; auto. }
  destruct (generateContent w k _) as [e'|t]; simpl.
  { intros H; injection H as <- _; auto. }
  destruct (truthy t) as [jsonText|]; simpl.
  - destruct (JSON_parse w jsonText); simpl; [|discriminate].
    intros H; injection H as <- _; auto.
  - intros H; injection H as <- _; auto.
Qed.

Lemma POST_answer (m : M Json) :
  try_catch
    (bind m (fun summary => ret (None, NextResponse_json summary 200)))
    POST_catch
  = answer m.
Proof.
  destruct m as [tr [j|s e]]; unfold answer, try_catch, bind, ret, POST_catch;
    simpl; now rewrite app_nil_r.
Qed.

Lemma scanned_branch_answer (b : Buffer) :
  try_catch (scanned_branch w b) POST_catch
  = binary_path w b.
Proof. apply POST_answer. Qed.

Lemma text_branch_answer (text : jsstring) :
  try_catch (text_branch w text) POST_catch
  = text_path w text.
Proof. apply POST_answer. Qed.

Lemma try_catch_after {A B} (tr : list Event) (a : A) (f : A -> M B) h :
  (forall s e, fst (h s e) = []) ->
  try_catch (bind (tr, Returned a) f) h = after tr (try_catch (f a) h).
Proof.
  intros Hh. unfold try_catch, bind, after.
  destruct (f a) as [tr' [r|s e]]; [reflexivity|].
  specialize (Hh s e). destruct (h s e) as [tr'' r]. simpl in *. subst.
  now rewrite !app_nil_r.
Qed.

Lemma POST_oversized (req : NextRequest) (f : File) :
  accepted_upload req = Some f ->
  MAX_FILE_BYTES < Buffer.byteLength (File.bytes f) ->
  POST w req
  = ([], Returned (Some AtSizeCheck,
                   NextResponse_json (error_body msg_too_large) 500)).
Proof.
  intros Hreq Hbig. unfold POST.
  rewrite (POST_try_accepted req f Hreq), (extract_oversized f Hbig).
  reflexivity.
Qed.

Lemma POST_plain (req : NextRequest) (f : File) :
  accepted_upload req = Some f ->
  Buffer.byteLength (File.bytes f) <= MAX_FILE_BYTES ->
  isPdf f = false ->
  POST w req
  = after [EvUtf8Decode (File.bytes f)]
      (text_path w (toString_utf8 w (File.bytes f))).
Proof.
  intros Hreq Hsize Hpdf. unfold POST.
  rewrite (POST_try_accepted req f Hreq), (extract_plain f Hsize Hpdf).
  rewrite try_catch_after by reflexivity. cbn [fst snd].
  unfold isScanned. rewrite Hpdf. cbn [andb].
  now rewrite text_branch_answer.
Qed.

Lemma POST_pdf (req : NextRequest) (f : File) :
  accepted_upload req = Some f ->
  Buffer.byteLength (File.bytes f) <= MAX_FILE_BYTES ->
  isPdf f = true ->
  POST w req
  = after [EvPdfParse (File.bytes f)]
      (if isScanned f (pdf_text w (File.bytes f))
       then binary_path w (File.bytes f)
       else text_path w (pdf_text w (File.bytes f))).
Proof.
  intros Hreq Hsize Hpdf. unfold POST.
  rewrite (POST_try_accepted req f Hreq), (extract_pdf f Hsize Hpdf).
  rewrite try_catch_after by reflexivity. cbn [fst snd].
  destruct (isScanned f _);
    [now rewrite scanned_branch_answer | now rewrite text_branch_answer].
Qed.

(** The threshold test, for a PDF. *)
Lemma isScanned_pdf (f : File) (text : jsstring) :
  isPdf f = true ->
  isScanned f text = (JsString.length (JsString.trim text) <? 500).
Proof.
  intros Hpdf. unfold isScanned. rewrite Hpdf. cbn [andb].
  destruct text; [reflexivity|]. reflexivity.
Qed.

Lemma attachments_with (p : jsstring) (d : InlineData) :
  attachments (request_params p (Some d)) = [d].
Proof. reflexivity. Qed.

Lemma attachments_without (p : jsstring) :
  attachments (request_params p None) = [].
Proof. reflexivity. Qed.

Lemma binary_path_sends (b : Buffer) (k : jsstring) (tr : list Event) :
  env_GEMINI_API_KEY w = Some k -> JsString.falsy k = false ->
  model_calls tr = [] ->
  sends_bytes (fst (after tr (binary_path w b))) b
    (js "application/pdf").
Proof.
  intros Hk Hf Htr. unfold sends_bytes, after, binary_path, answer.
  cbn [fst]. rewrite (summarize_trace _ _ k Hk Hf).
  eexists. eexists. split; [|split; [|split; [|split]]].
  - unfold model_calls in *. rewrite flat_map_app, Htr. reflexivity.
  - apply attachments_with.
  - reflexivity.
  - apply Base64Facts.from_base64_toString.
  - reflexivity.
Qed.

Lemma text_path_sends (text k : jsstring) (tr : list Event) :
  env_GEMINI_API_KEY w = Some k -> JsString.falsy k = false ->
  model_calls tr = [] ->
  sends_text (fst (after tr (text_path w text)))
    (JsString.slice text 0 MAX_CHARS).
Proof.
  intros Hk Hf Htr. unfold sends_text, after, text_path, answer.
  cbn [fst]. rewrite (summarize_trace _ _ k Hk Hf).
  eexists. split; [|split].
  - unfold model_calls in *. rewrite flat_map_app, Htr. reflexivity.
  - apply attachments_without.
  - reflexivity.
Qed.

(** A request that fails an input check is answered at once. *)
Lemma POST_rejected (req : NextRequest) :
  accepted_upload req = None ->
  exists r, POST w req = ([], Returned r) /\ classified r.
Proof.
  unfold accepted_upload, POST, POST_try, attempt, try_catch, bind, ret.
  intros H.
  destruct (formData req) as [e|fd].
  - eexists. split; [reflexivity|]. unfold classified. cbn.
    split; [reflexivity|]. split; [eexists; reflexivity|discriminate].
  - destruct (tool_mismatch _).
    + eexists. split; [reflexivity|]. unfold classified. cbn.
      split; [reflexivity|]. split; [eexists; reflexivity|discriminate].
    + destruct (FormData_get fd (js "file")) as [[s|file]|];
        try discriminate;
        (eexists; split; [reflexivity|]; unfold classified; cbn;
         split; [reflexivity|]; split; [eexists; reflexivity|discriminate]).
Qed.

Lemma answer_classified (tr : list Event) (p : jsstring) i :
  exists r,
    after tr (answer (summarizeEarningsCall w p i))
    = (tr ++ fst (summarizeEarningsCall w p i), Returned r)
    /\ classified r.
Proof.
  unfold after, answer. cbn [fst snd].
  eexists. split; [reflexivity|].
  pose proof (summarize_sites p i) as Hsites.
  destruct (snd (summarizeEarningsCall w p i)) as [j|s e].
  - reflexivity.
  - unfold classified. cbn [reply_of fst snd status body NextResponse_json].
    destruct (Hsites s e eq_refl) as [-> | [-> | [-> | ->]]];
      (split; [reflexivity|]; split; [eexists; reflexivity|discriminate]).
Qed.

(** The handler always answers, and every answer is classified. *)
Lemma POST_classified (req : NextRequest) :
  exists tr r, POST w req = (tr, Returned r) /\ classified r.
Proof.
  destruct (accepted_upload req) as [f|] eqn:Hreq.
  2: { destruct (POST_rejected req Hreq) as [r Hr]. now exists [], r. }
  destruct (Z.lt_ge_cases MAX_FILE_BYTES (Buffer.byteLength (File.bytes f)))
    as [Hbig|Hsize].
  { rewrite (POST_oversized req f Hreq Hbig). eexists. eexists.
    split; [reflexivity|]. unfold classified. cbn.
    split; [reflexivity|]. split; [eexists; reflexivity|discriminate]. }
  destruct (isPdf f) eqn:Hpdf.
  - rewrite (POST_pdf req f Hreq Hsize Hpdf).
    destruct (isScanned f _); unfold binary_path, text_path.
    + edestruct answer_classified as [r [Hr Hc]].
      eexists. exists r. split; [apply Hr|apply Hc].
    + edestruct answer_classified as [r [Hr Hc]].
      eexists. exists r. split; [apply Hr|apply Hc].
  - rewrite (POST_plain req f Hreq Hsize Hpdf). unfold text_path.
    edestruct answer_classified as [r [Hr Hc]].
    eexists. exists r. split; [apply Hr|apply Hc].
Qed.

(** Without the credential no request reaches the model. *)
Lemma POST_no_key_trace (req : NextRequest) :
  absent (env_GEMINI_API_KEY w) = true ->
  model_calls (fst (POST w req)) = [].
Proof.
  intros Hkey.
  destruct (accepted_upload req) as [f|] eqn:Hreq.
  2: { destruct (POST_rejected req Hreq) as [r [-> _]]. reflexivity. }
  destruct (Z.lt_ge_cases MAX_FILE_BYTES (Buffer.byteLength (File.bytes f)))
    as [Hbig|Hsize].
  { now rewrite (POST_oversized req f Hreq Hbig). }
  destruct (isPdf f) eqn:Hpdf.
  - rewrite (POST_pdf req f Hreq Hsize Hpdf).
    destruct (isScanned f _); unfold binary_path, text_path, after, answer;
      cbn [fst]; now rewrite summarize_no_key.
  - rewrite (POST_plain req f Hreq Hsize Hpdf).
    unfold text_path, after, answer. cbn [fst].
    now rewrite summarize_no_key.
Qed.

(** The UTF-8 decoder is reached for no PDF. *)
Lemma POST_pdf_not_decoded (req : NextRequest) (f : File) :
  accepted_upload req = Some f ->
  isPdf f = true ->
  decoded_buffers (fst (POST w req)) = [].
Proof.
  intros Hreq Hpdf.
  destruct (Z.lt_ge_cases MAX_FILE_BYTES (Buffer.byteLength (File.bytes f)))
    as [Hbig|Hsize].
  { now rewrite (POST_oversized req f Hreq Hbig). }
  rewrite (POST_pdf req f Hreq Hsize Hpdf).
  assert (forall p i,
             decoded_buffers (fst (summarizeEarningsCall w p i))
             = []) as Hsum.
  { intros p i.
    destruct (absent_cases (env_GEMINI_API_KEY w)) as [Ha|[k [Hk Hf]]].
    - now rewrite summarize_no_key.
    - now rewrite (summarize_trace p i k Hk Hf). }
  destruct (isScanned f _); unfold binary_path, text_path, after, answer;
    cbn [fst]; unfold decoded_buffers in *; rewrite flat_map_app, Hsum;
    reflexivity.
Qed.

(** A name with the suffix is a PDF, whatever type the upload declares. *)
Lemma isPdf_by_name (f : File) : ends_in_pdf (File.name f) -> isPdf f = true.
Proof.
  intros (stem & c1 & c2 & c3 & Hname & H1 & H2 & H3).
  unfold isPdf. rewrite Hname. apply orb_true_iff. right.
  unfold JsString.toLowerCase. rewrite map_app.
  destruct H1 as [-> | ->], H2 as [-> | ->], H3 as [-> | ->];
    exact (JsStringFacts.endsWith_app (List.map JsString.lower stem)
             (js ".pdf")).
Qed.

(** Past the input and size checks, the reply is the one to the outcome of
    the model call. *)
Lemma POST_reply (req : NextRequest) (f : File) (c : Completion Json) :
  accepted_upload req = Some f ->
  Buffer.byteLength (File.bytes f) <= MAX_FILE_BYTES ->
  (forall p i, snd (summarizeEarningsCall w p i) = c) ->
  snd (POST w req) = Returned (reply_of c).
Proof.
  intros Hreq Hsize Hsum.
  destruct (isPdf f) eqn:Hpdf.
  - rewrite (POST_pdf req f Hreq Hsize Hpdf).
    destruct (isScanned f _); unfold binary_path, text_path, after, answer;
      cbn [snd]; now rewrite Hsum.
  - rewrite (POST_plain req f Hreq Hsize Hpdf).
    unfold text_path, after, answer. cbn [snd]. now rewrite Hsum.
Qed.

(** The answers to a request that fails an input check. *)
Lemma POST_unreadable_form (req : NextRequest) (e : JsError) :
  formData req = inl e ->
  POST w req
  = ([], Returned (Some AtFormData,
                   NextResponse_json (error_body (error_message e)) 500)).
Proof.
  intros H. unfold POST, POST_try, attempt. now rewrite H.
Qed.

Lemma POST_wrong_tool (req : NextRequest) (fd : FormData) :
  formData req = inr fd ->
  tool_mismatch (FormData_get fd (js "tool")) = true ->
  POST w req
  = ([], Returned (Some AtToolCheck,
                   NextResponse_json (error_body msg_tool) 400)).
Proof.
  intros H Htool. unfold POST, POST_try, attempt, bind. rewrite H.
  cbv iota. now rewrite Htool.
Qed.

Lemma POST_no_file (req : NextRequest) (fd : FormData) :
  formData req = inr fd ->
  tool_mismatch (FormData_get fd (js "tool")) = false ->
  uploaded_file req = None ->
  POST w req
  = ([], Returned (Some AtFileCheck,
                   NextResponse_json (error_body msg_no_file) 400)).
Proof.
  intros H Htool Hfile. unfold POST, POST_try, attempt, bind, uploaded_file in *.
  rewrite H in *. cbv iota. rewrite Htool.
  destruct (FormData_get fd (js "file")) as [[s|f]|];
    [reflexivity|discriminate|reflexivity].
Qed.

End RouteFacts.

(* ===================================================================== *)
(** ** Properties of the pipeline *)
(* ===================================================================== *)

Section Pipeline.

Variable w : World.

(** C1, as the code has it.  The route has no normalization step: when the
    model answers with a non-empty text that [JSON.parse] reads as [j],
    [summarizeEarningsCall] returns [j] itself and the response is status
    200 with body [j], field for field, nothing added and nothing
    defaulted. *)
Theorem response_is_parsed_payload
  (req : NextRequest) (f : File) (k t : jsstring) (j : Json) :
  accepted_upload req = Some f ->
  Buffer.byteLength (File.bytes f) <= MAX_FILE_BYTES ->
  env_GEMINI_API_KEY w = Some k -> JsString.falsy k = false ->
  (forall params, generateContent w k params = inr (Some t)) ->
  JsString.falsy t = false ->
  JSON_parse w t = inr j ->
  (forall p i, snd (summarizeEarningsCall w p i) = Returned j)
  /\ snd (POST w req)
     = Returned (None, {| status := 200; body := j |}).
Proof.
  intros Hreq Hsize Hk Hf Hmodel Ht Hj.
  assert (forall p i, snd (summarizeEarningsCall w p i) = Returned j) as Hsum.
  { intros p i.
    now rewrite (summarize_answer w p i k t j Hk Hf (Hmodel _) Ht Hj). }
  split; [exact Hsum|].
  exact (POST_reply w req f (Returned j) Hreq Hsize Hsum).
Qed.

(** C2, as the code has it.  For an accepted PDF upload within the size cap
    the threshold is applied to the extracted text after [trim]: with fewer
    than 500 characters left (so whenever the text itself is shorter than
    500) the route takes the binary path, and with 500 or more it takes the
    text path.  On the binary path the one model request carries an
    attachment that decodes to the uploaded bytes; on the text path it
    carries no attachment and the truncated text. *)
Theorem scanned_threshold_on_trimmed_text (req : NextRequest) (f : File) :
  accepted_upload req = Some f ->
  isPdf f = true ->
  Buffer.byteLength (File.bytes f) <= MAX_FILE_BYTES ->
  let b := File.bytes f in
  let text := pdf_text w b in
  (JsString.length (JsString.trim text) < 500 ->
   POST w req
   = after [EvPdfParse b] (binary_path w b))
  /\ (500 <= JsString.length (JsString.trim text) ->
      POST w req
      = after [EvPdfParse b] (text_path w text))
  /\ (JsString.length text < 500 ->
      POST w req
      = after [EvPdfParse b] (binary_path w b))
  /\ (forall k,
        env_GEMINI_API_KEY w = Some k -> JsString.falsy k = false ->
        sends_bytes
          (fst (after [EvPdfParse b] (binary_path w b))) b
          (js "application/pdf")
        /\ sends_text (fst (after [EvPdfParse b] (text_path w text)))
             (JsString.slice text 0 MAX_CHARS)).
Proof.
  intros Hreq Hpdf Hsize b text.
  pose proof (POST_pdf w req f Hreq Hsize Hpdf) as HPOST.
  rewrite (isScanned_pdf f _ Hpdf) in HPOST. fold b text in HPOST.
  assert (JsString.length (JsString.trim text) < 500 ->
          POST w req
          = after [EvPdfParse b] (binary_path w b)) as Hbin.
  { intros Hlt. now rewrite (proj2 (Z.ltb_lt _ _) Hlt) in HPOST. }
  split; [exact Hbin|]. split; [|split].
  - intros Hge. now rewrite (proj2 (Z.ltb_ge _ _) Hge) in HPOST.
  - intros Hlt. apply Hbin.
    pose proof (JsStringFacts.trim_length text). lia.
  - intros k Hk Hf. split.
    + now apply binary_path_sends with (k := k).
    + now apply text_path_sends with (k := k).
Qed.

(** C3, as the code has it.  The handler always answers, with status 200
    on success; a failure carries the status of its kind, 400 for an input
    validation error (wrong or missing tool selector, missing file) and 500
    for every other kind, a payload over the server cap included, and its
    body is an object with the single field [error], a string.  Trigger by
    trigger: an unreadable form is answered 500, a wrong or missing tool
    selector 400, a missing file 400, an upload over the cap 500, and past
    these checks a model call that throws is answered 500 with the message
    of its error. *)
Theorem failure_statuses (req : NextRequest) :
  (exists tr site resp,
      POST w req = (tr, Returned (site, resp))
      /\ match site with
         | None => status resp = 200
         | Some s =>
             status resp = status_of_kind (kind_of_site s)
             /\ (exists msg, body resp = JObject [(js "error", JString msg)])
             /\ (if match kind_of_site s with
                    | InputValidationError => true
                    | _ => false
                    end
                 then client_error_class (status resp)
                 else server_error_class (status resp)) = true
         end)
  /\ (forall e,
        formData req = inl e ->
        snd (POST w req)
        = Returned (Some AtFormData,
                    {| status := 500; body := error_body (error_message e) |}))
  /\ (forall fd,
        formData req = inr fd ->
        tool_mismatch (FormData_get fd (js "tool")) = true ->
        snd (POST w req)
        = Returned (Some AtToolCheck,
                    {| status := 400; body := error_body msg_tool |}))
  /\ (forall fd,
        formData req = inr fd ->
        tool_mismatch (FormData_get fd (js "tool")) = false ->
        uploaded_file req = None ->
        snd (POST w req)
        = Returned (Some AtFileCheck,
                    {| status := 400; body := error_body msg_no_file |}))
  /\ (forall f,
        accepted_upload req = Some f ->
        MAX_FILE_BYTES < Buffer.byteLength (File.bytes f) ->
        snd (POST w req)
        = Returned (Some AtSizeCheck,
                    {| status := 500; body := error_body msg_too_large |}))
  /\ (forall f s e,
        accepted_upload req = Some f ->
        Buffer.byteLength (File.bytes f) <= MAX_FILE_BYTES ->
        (forall p i, snd (summarizeEarningsCall w p i) = Thrown s e) ->
        snd (POST w req)
        = Returned (Some s,
                    {| status := 500; body := error_body (error_message e) |})).
Proof.
  split; [|split; [|split; [|split; [|split]]]].
  - destruct (POST_classified w req) as (tr & [site resp] & HP & Hc).
    exists tr, site, resp. split; [exact HP|].
    unfold classified in Hc. cbn [fst snd] in Hc.
    destruct site as [s|]; [|exact Hc].
    destruct Hc as (Hst & Hbody & _).
    split; [exact Hst|]. split; [exact Hbody|].
    rewrite Hst. destruct s; reflexivity.
  - intros e H. now rewrite (POST_unreadable_form w req e H).
  - intros fd H Htool. now rewrite (POST_wrong_tool w req fd H Htool).
  - intros fd H Htool Hfile. now rewrite (POST_no_file w req fd H Htool Hfile).
  - intros f Hreq Hbig. now rewrite (POST_oversized w req f Hreq Hbig).
  - intros f s e Hreq Hsize Hsum.
    exact (POST_reply w req f (Thrown s e) Hreq Hsize Hsum).
Qed.

(** C4, as the code has it.  When the scanned-document test fires for an
    accepted upload within the size cap, the one model request carries one
    attachment: its data decode to the uploaded bytes and its media type is
    the constant [application/pdf], which is the declared media type of the
    upload when that one is [application/pdf]. *)
Theorem scanned_attachment (req : NextRequest) (f : File) (k : jsstring) :
  accepted_upload req = Some f ->
  Buffer.byteLength (File.bytes f) <= MAX_FILE_BYTES ->
  isScanned f (pdf_text w (File.bytes f)) = true ->
  env_GEMINI_API_KEY w = Some k -> JsString.falsy k = false ->
  exists d,
    model_calls (fst (POST w req))
    = [request_params scanned_prompt (Some d)]
    /\ attachments (request_params scanned_prompt (Some d)) = [d]
    /\ mimeType d = js "application/pdf"
    /\ Buffer.from_base64 (data d) = Some (File.bytes f)
    /\ (File.type f = js "application/pdf" -> mimeType d = File.type f).
Proof.
  intros Hreq Hsize Hscan Hk Hf.
  assert (isPdf f = true) as Hpdf.
  { unfold isScanned in Hscan. now apply andb_true_iff in Hscan. }
  rewrite (POST_pdf w req f Hreq Hsize Hpdf), Hscan.
  unfold after, binary_path, answer. cbn [fst].
  rewrite (summarize_trace w _ _ k Hk Hf).
  eexists. split; [reflexivity|]. split; [reflexivity|].
  split; [reflexivity|]. split.
  - apply Base64Facts.from_base64_toString.
  - intros ->. reflexivity.
Qed.

(** C5.  For every upload longer than [MAX_FILE_BYTES] the handler makes no
    call at all, neither to the PDF parser nor to the UTF-8 decoder nor to
    the model, and when the request passes the input checks it is answered
    with the too-large failure, whose kind is [PayloadTooLarge]. *)
Theorem oversized_upload_rejected (req : NextRequest) (f : File) :
  uploaded_file req = Some f ->
  MAX_FILE_BYTES < Buffer.byteLength (File.bytes f) ->
  fst (POST w req) = []
  /\ extractTextFromFile w f = ([], Thrown AtSizeCheck {| message := Some msg_too_large |})
  /\ kind_of_site AtSizeCheck = PayloadTooLarge
  /\ (accepted_upload req = Some f ->
      snd (POST w req)
      = Returned (Some AtSizeCheck,
                  {| status := 500; body := error_body msg_too_large |})).
Proof.
  intros Hfile Hbig.
  split; [|split; [apply (extract_oversized w f Hbig)|split; [reflexivity|]]].
  - destruct (accepted_upload req) as [f'|] eqn:Hreq.
    + assert (f' = f) as ->.
      { unfold accepted_upload, uploaded_file in *.
        destruct (formData req) as [e|fd]; [discriminate|].
        destruct (tool_mismatch _); [discriminate|].
        destruct (FormData_get fd (js "file")) as [[s|file]|];
          congruence. }
      now rewrite (POST_oversized w req f Hreq Hbig).
    + destruct (POST_rejected w req Hreq) as [r [-> _]].
      reflexivity.
  - intros Hreq. now rewrite (POST_oversized w req f Hreq Hbig).
Qed.

(** C6.  For every accepted upload within the size cap that is not
    classified as a PDF, the extracted text is the UTF-8 decoding of the
    uploaded bytes, the scanned-document test is false, the route takes the
    text path with that text, and no model request of the run carries an
    attachment. *)
Theorem plain_upload_takes_text_path (req : NextRequest) (f : File) :
  accepted_upload req = Some f ->
  isPdf f = false ->
  Buffer.byteLength (File.bytes f) <= MAX_FILE_BYTES ->
  let b := File.bytes f in
  extractTextFromFile w f
  = ([EvUtf8Decode b], Returned (toString_utf8 w b, b))
  /\ isScanned f (toString_utf8 w b) = false
  /\ POST w req
     = after [EvUtf8Decode b] (text_path w (toString_utf8 w b))
  /\ Forall (fun p => attachments p = [])
       (model_calls (fst (POST w req)))
  /\ (forall k,
        env_GEMINI_API_KEY w = Some k -> JsString.falsy k = false ->
        sends_text (fst (POST w req))
          (JsString.slice (toString_utf8 w b) 0 MAX_CHARS)).
Proof.
  intros Hreq Hpdf Hsize b.
  pose proof (POST_plain w req f Hreq Hsize Hpdf) as HPOST.
  fold b in HPOST.
  split; [apply (extract_plain w f Hsize Hpdf)|].
  split; [unfold isScanned; now rewrite Hpdf|].
  split; [exact HPOST|]. split.
  - rewrite HPOST. unfold after, text_path, answer. cbn [fst].
    destruct (absent_cases (env_GEMINI_API_KEY w)) as [Ha|[k [Hk Hf]]].
    + rewrite summarize_no_key by assumption. constructor.
    + rewrite (summarize_trace w _ _ k Hk Hf).
      repeat constructor.
  - intros k Hk Hf. rewrite HPOST. now apply text_path_sends with (k := k).
Qed.

(** The slice of the text branch, by cases on the length of the text. *)
Lemma slice_MAX_CHARS (s : jsstring) :
  JsString.slice s 0 MAX_CHARS
  = if JsString.length s <=? 40000 then s else firstn (Z.to_nat 40000) s.
Proof.
  rewrite JsStringFacts.slice_from_start by (unfold MAX_CHARS; lia).
  unfold MAX_CHARS, JsString.length.
  destruct (Z.of_nat (List.length s) <=? 40000) eqn:Hle; [|reflexivity].
  apply Z.leb_le in Hle. apply firstn_all2. lia.
Qed.

(** C7.  The text branch truncates: for a text [s], the prompt it hands to
    [summarizeEarningsCall], and so the one text the model receives, is
    built around [s] itself when [s] has at most 40,000 characters and
    around exactly the first 40,000 characters of [s] when it is longer.
    The truncation is idempotent (the branch does on the truncated text
    what it does on [s]) and keeps a prefix of [s].  The same holds for the
    request as a whole: an accepted upload within the size cap whose
    extracted text [s] is not taken for a scan is sent with that truncated
    text. *)
Theorem truncation_is_prefix (s : jsstring) :
  let sent :=
    if JsString.length s <=? 40000 then s else firstn (Z.to_nat 40000) s in
  text_branch w s
  = bind (summarizeEarningsCall w (userPrompt sent) None)
      (fun summary => ret (None, NextResponse_json summary 200))
  /\ (forall k,
        env_GEMINI_API_KEY w = Some k -> JsString.falsy k = false ->
        exists p,
          model_calls (fst (text_branch w s)) = [p]
          /\ attachments p = []
          /\ texts p
             = [SYSTEM_PROMPT ++ [LF; LF] ++ [LF]
                ++ js "Transcript text (may be truncated for length):"
                ++ [LF; LF] ++ [dquote; dquote; dquote] ++ sent
                ++ [dquote; dquote; dquote] ++ [LF]])
  /\ (JsString.length s <= 40000 -> sent = s)
  /\ (40000 < JsString.length s ->
      sent = firstn (Z.to_nat 40000) s /\ JsString.length sent = 40000)
  /\ text_branch w sent = text_branch w s
  /\ (exists rest, s = sent ++ rest)
  /\ (forall req f,
        accepted_upload req = Some f ->
        Buffer.byteLength (File.bytes f) <= MAX_FILE_BYTES ->
        s = (if isPdf f then pdf_text w (File.bytes f)
             else toString_utf8 w (File.bytes f)) ->
        isScanned f s = false ->
        POST w req
        = after [if isPdf f then EvPdfParse (File.bytes f)
                 else EvUtf8Decode (File.bytes f)]
            (answer (summarizeEarningsCall w (userPrompt sent) None))
        /\ forall k,
             env_GEMINI_API_KEY w = Some k -> JsString.falsy k = false ->
             sends_text (fst (POST w req)) sent).
Proof.
  intros sent.
  assert (JsString.slice s 0 MAX_CHARS = sent) as Hslice
    by apply slice_MAX_CHARS.
  assert (JsString.length s <= 40000 -> sent = s) as Hshort.
  { intros Hle. unfold sent. now rewrite (proj2 (Z.leb_le _ _) Hle). }
  assert (40000 < JsString.length s -> sent = firstn (Z.to_nat 40000) s)
    as Hlong.
  { intros Hgt. unfold sent. now rewrite (proj2 (Z.leb_gt _ _) Hgt). }
  assert (JsString.length sent <= 40000) as Hbound.
  { rewrite <- Hslice.
    rewrite JsStringFacts.slice_from_start by (unfold MAX_CHARS; lia).
    unfold MAX_CHARS, JsString.length. rewrite List.length_firstn. lia. }
  assert (text_branch w s
          = bind (summarizeEarningsCall w (userPrompt sent) None)
              (fun summary => ret (None, NextResponse_json summary 200)))
    as Hbranch.
  { unfold text_branch. now rewrite Hslice. }
  split; [exact Hbranch|]. split; [|split; [exact Hshort|split; [|split; [|split]]]].
  - intros k Hk Hf. exists (request_params (userPrompt sent) None).
    split; [|split; reflexivity].
    rewrite Hbranch. unfold bind, ret.
    pose proof (summarize_trace w (userPrompt sent) None k Hk Hf) as Htr.
    destruct (summarizeEarningsCall w (userPrompt sent) None) as [tr [j|x e]];
      cbn [fst] in *; subst tr; reflexivity.
  - intros Hgt. split; [now apply Hlong|].
    rewrite (Hlong Hgt). unfold JsString.length in *.
    rewrite List.length_firstn. lia.
  - unfold text_branch. rewrite Hslice, slice_MAX_CHARS.
    now rewrite (proj2 (Z.leb_le _ _) Hbound).
  - destruct (Z.le_gt_cases (JsString.length s) 40000) as [Hle|Hgt].
    + exists []. rewrite (Hshort Hle). now rewrite app_nil_r.
    + exists (skipn (Z.to_nat 40000) s). rewrite (Hlong Hgt).
      symmetry. apply firstn_skipn.
  - intros req f Hreq Hsize Htext Hscan.
    assert (POST w req
            = after [if isPdf f then EvPdfParse (File.bytes f)
                     else EvUtf8Decode (File.bytes f)]
                (answer (summarizeEarningsCall w (userPrompt sent) None)))
      as HPOST.
    { destruct (isPdf f) eqn:Hpdf.
      - rewrite (POST_pdf w req f Hreq Hsize Hpdf), <- Htext, Hscan.
        unfold text_path. now rewrite Hslice.
      - rewrite (POST_plain w req f Hreq Hsize Hpdf), <- Htext.
        unfold text_path. now rewrite Hslice. }
    split; [exact HPOST|].
    intros k Hk Hf. rewrite HPOST. unfold sends_text, after, answer.
    cbn [fst]. rewrite (summarize_trace w _ _ k Hk Hf).
    exists (request_params (userPrompt sent) None).
    split; [|split; reflexivity].
    unfold model_calls. rewrite flat_map_app.
    destruct (isPdf f); reflexivity.
Qed.

(** C8.  For every accepted PDF upload within the size cap whose parsing
    throws, [extractTextFromFile] returns the empty text instead of
    throwing, the scanned-document test fires on it, and the handler goes on
    to the binary path; with the credential configured the model is called
    with the uploaded bytes attached. *)
Theorem pdf_parse_failure_degrades
  (req : NextRequest) (f : File) (e : JsError) :
  accepted_upload req = Some f ->
  isPdf f = true ->
  Buffer.byteLength (File.bytes f) <= MAX_FILE_BYTES ->
  pdf_getText w (File.bytes f) = inl e ->
  let b := File.bytes f in
  extractTextFromFile w f = ([EvPdfParse b], Returned ([], b))
  /\ isScanned f [] = true
  /\ POST w req
     = after [EvPdfParse b] (binary_path w b)
  /\ (forall k,
        env_GEMINI_API_KEY w = Some k -> JsString.falsy k = false ->
        sends_bytes (fst (POST w req)) b (js "application/pdf")).
Proof.
  intros Hreq Hpdf Hsize Hthrow b.
  assert (pdf_text w b = []) as Htext.
  { unfold pdf_text, b. now rewrite Hthrow. }
  assert (isScanned f [] = true) as Hscan.
  { unfold isScanned. now rewrite Hpdf. }
  assert (POST w req
          = after [EvPdfParse b] (binary_path w b)) as HPOST.
  { rewrite (POST_pdf w req f Hreq Hsize Hpdf).
    fold b. now rewrite Htext, Hscan. }
  split; [|split; [exact Hscan|split; [exact HPOST|]]].
  - rewrite (extract_pdf w f Hsize Hpdf). fold b. now rewrite Htext.
  - intros k Hk Hf. rewrite HPOST. now apply binary_path_sends with (k := k).
Qed.

(** C9.  When the credential is absent from the environment (undefined or
    empty), every call of [summarizeEarningsCall] throws the
    not-configured error, whose kind is [ConfigMissing], before any call
    to the model; no request reaches the model, and a request that passes
    the input checks with an upload within the size cap is answered with
    that failure. *)
Theorem missing_key_fails_before_network :
  absent (env_GEMINI_API_KEY w) = true ->
  (forall p i,
      summarizeEarningsCall w p i
      = ([], Thrown AtApiKeyCheck {| message := Some msg_no_key |}))
  /\ kind_of_site AtApiKeyCheck = ConfigMissing
  /\ (forall req, model_calls (fst (POST w req)) = [])
  /\ (forall req f,
        accepted_upload req = Some f ->
        Buffer.byteLength (File.bytes f) <= MAX_FILE_BYTES ->
        snd (POST w req)
        = Returned (Some AtApiKeyCheck,
                    {| status := 500; body := error_body msg_no_key |})).
Proof.
  intros Hkey.
  split; [intros p i; now apply summarize_no_key|].
  split; [reflexivity|].
  split; [intros req; now apply POST_no_key_trace|].
  intros req f Hreq Hsize.
  apply (POST_reply w req f (Thrown AtApiKeyCheck (Error
    "GEMINI_API_KEY is not configured. Please set it in your environment."))
           Hreq Hsize).
  intros p i. now rewrite summarize_no_key.
Qed.

(** C10.  For every accepted upload whose name ends in [.pdf] in any mix of
    cases, whatever media type it declares, the file is classified as a PDF
    and its bytes are never handed to the UTF-8 decoder; within the size
    cap and with the credential configured, if PDF parsing throws or yields
    fewer than 500 characters, the model is called with the uploaded bytes
    attached under the media type [application/pdf]. *)
Theorem pdf_by_name_never_decoded (req : NextRequest) (f : File) :
  ends_in_pdf (File.name f) ->
  accepted_upload req = Some f ->
  isPdf f = true
  /\ decoded_buffers (fst (POST w req)) = []
  /\ (Buffer.byteLength (File.bytes f) <= MAX_FILE_BYTES ->
      forall k,
        env_GEMINI_API_KEY w = Some k -> JsString.falsy k = false ->
        (exists e, pdf_getText w (File.bytes f) = inl e)
        \/ (exists t, pdf_getText w (File.bytes f) = inr t
                      /\ JsString.length t < 500) ->
        sends_bytes (fst (POST w req)) (File.bytes f)
          (js "application/pdf")).
Proof.
  intros Hname Hreq.
  pose proof (isPdf_by_name f Hname) as Hpdf.
  split; [exact Hpdf|].
  split; [now apply POST_pdf_not_decoded with (f := f)|].
  intros Hsize k Hk Hf Hshort.
  rewrite (POST_pdf w req f Hreq Hsize Hpdf).
  rewrite (isScanned_pdf f _ Hpdf).
  assert (JsString.length (JsString.trim (pdf_text w (File.bytes f))) < 500)
    as Hlt.
  { unfold pdf_text. destruct Hshort as [[e ->]|[t [-> Ht]]].
    - reflexivity.
    - pose proof (JsStringFacts.trim_length t). lia. }
  rewrite (proj2 (Z.ltb_lt _ _) Hlt).
  now apply binary_path_sends with (k := k).
Qed.

End Pipeline.

(* ===================================================================== *)
(** ** Concrete runs *)
(* ===================================================================== *)

(** The length of the oversized sample, without building it. *)
Lemma oversized_length :
  Buffer.byteLength Samples.oversized_bytes = MAX_FILE_BYTES + 1.
Proof.
  unfold Buffer.byteLength, Samples.oversized_bytes.
  rewrite repeat_length. apply Z2Nat.id. unfold MAX_FILE_BYTES. lia.
Qed.

Lemma oversized_too_long :
  MAX_FILE_BYTES < Buffer.byteLength (File.bytes Samples.oversized).
Proof.
  change (File.bytes Samples.oversized) with Samples.oversized_bytes.
  rewrite oversized_length. lia.
Qed.

(** C1: the claim fails.  The model answers [{"tone":"optimistic"}] to a
    small text upload; the response body is that object alone: it has no
    [confidence] field, and not every required key. *)
Lemma tone_only_payload_is_returned_as_is :
  let w := Samples.world Samples.parse_failure in
  generateContent w Samples.api_key
    (request_params (userPrompt (toString_utf8 w (File.bytes Samples.transcript))) None)
  = inr (Some Samples.tone_only_text)
  /\ snd (POST w (page_request Samples.transcript))
     = Returned (None, {| status := 200; body := Samples.tone_only |})
  /\ JsonOps.get (js "confidence") Samples.tone_only
     <> Some (JString (js "unknown"))
  /\ forallb (fun k => JsonOps.has_key k Samples.tone_only)
       Schema.required_keys = false.
Proof.
  cbv zeta. split; [reflexivity|]. split; [vm_compute; reflexivity|].
  split; [vm_compute; discriminate|vm_compute; reflexivity].
Qed.

(** The tone-only payload reaches the client as the whole body. *)
Lemma response_is_parsed_payload_witness :
  snd (POST (Samples.world Samples.parse_failure)
         (page_request Samples.transcript))
  = Returned (None, {| status := 200; body := Samples.tone_only |}).
Proof.
  apply (proj2 (response_is_parsed_payload (Samples.world Samples.parse_failure)
                  (page_request Samples.transcript) Samples.transcript
                  Samples.api_key Samples.tone_only_text Samples.tone_only
                  eq_refl ltac:(vm_compute; discriminate) eq_refl eq_refl
                  (fun _ => eq_refl) eq_refl ltac:(vm_compute; reflexivity))).
Defined.

(** C2: the claim fails.  The parser yields 500 spaces for a PDF: the
    extracted text has 500 characters, and the one model request carries
    the file as an attachment. *)
Lemma blank_text_of_500_takes_binary_path :
  let w := Samples.world (inr (Samples.blank 500)) in
  let b := File.bytes Samples.report in
  isPdf Samples.report = true
  /\ extractTextFromFile w Samples.report
     = ([EvPdfParse b], Returned (Samples.blank 500, b))
  /\ JsString.length (Samples.blank 500) = 500
  /\ POST w (page_request Samples.report)
     = after [EvPdfParse b] (binary_path w b)
  /\ List.map attachments
       (model_calls
          (fst (POST w (page_request Samples.report))))
     = [[{| mimeType := js "application/pdf";
            data := Buffer.toString_base64 b |}]].
Proof. cbv zeta. repeat split; vm_compute; reflexivity. Qed.

(** A PDF whose parser yields 200 letters takes the binary path. *)
Lemma scanned_threshold_witness :
  let w := Samples.world (inr (Samples.letters 200)) in
  let b := File.bytes Samples.report in
  JsString.length (JsString.trim (pdf_text w b)) < 500
  /\ POST w (page_request Samples.report)
     = after [EvPdfParse b] (binary_path w b).
Proof.
  cbv zeta.
  assert (JsString.length
            (JsString.trim
               (pdf_text (Samples.world (inr (Samples.letters 200)))
                  (File.bytes Samples.report))) < 500) as Hlt
    by (vm_compute; reflexivity).
  split; [exact Hlt|].
  exact (proj1 (scanned_threshold_on_trimmed_text (Samples.world (inr (Samples.letters 200)))
                  (page_request Samples.report) Samples.report
                  eq_refl eq_refl ltac:(vm_compute; discriminate)) Hlt).
Defined.

(** C3: the claim fails.  An upload of one byte over the cap passes the
    input checks and is answered with status 500, not with a status of the
    400 class. *)
Lemma oversized_upload_is_answered_500 :
  POST (Samples.world Samples.parse_failure)
    (page_request Samples.oversized)
  = ([], Returned (Some AtSizeCheck,
                   {| status := 500; body := error_body msg_too_large |}))
  /\ kind_of_site AtSizeCheck = PayloadTooLarge
  /\ client_error_class 500 = false.
Proof.
  split; [|split; reflexivity].
  apply POST_oversized with (f := Samples.oversized);
    [reflexivity|apply oversized_too_long].
Qed.

(** A request for another tool is answered with status 400. *)
Lemma failure_statuses_witness :
  snd (POST (Samples.world Samples.parse_failure) Samples.other_tool_request)
  = Returned (Some AtToolCheck,
              {| status := 400; body := error_body msg_tool |}).
Proof.
  exact (proj1 (proj2 (proj2 (failure_statuses
                                (Samples.world Samples.parse_failure)
                                Samples.other_tool_request)))
           _ eq_refl eq_refl).
Defined.

(** C4: the claim fails.  An upload named [Scan.PDF] that declares
    [application/octet-stream] and cannot be parsed is sent to the model
    with the media type [application/pdf], not the declared one. *)
Lemma attachment_type_is_not_the_declared_one :
  let w := Samples.world Samples.parse_failure in
  isScanned Samples.scan (pdf_text w (File.bytes Samples.scan)) = true
  /\ List.map (fun p => List.map mimeType (attachments p))
       (model_calls (fst (POST w (page_request Samples.scan))))
     = [[js "application/pdf"]]
  /\ File.type Samples.scan = js "application/octet-stream"
  /\ js "application/pdf" <> File.type Samples.scan.
Proof.
  cbv zeta. split; [vm_compute; reflexivity|].
  split; [vm_compute; reflexivity|]. split; [reflexivity|].
  vm_compute. discriminate.
Qed.

(** The attachment of the unparseable [Scan.PDF] decodes to its bytes. *)
Lemma scanned_attachment_witness :
  exists d,
    model_calls
      (fst (POST (Samples.world Samples.parse_failure)
              (page_request Samples.scan)))
    = [request_params scanned_prompt (Some d)]
    /\ mimeType d = js "application/pdf"
    /\ Buffer.from_base64 (data d) = Some (File.bytes Samples.scan).
Proof.
  destruct (scanned_attachment (Samples.world Samples.parse_failure)
              (page_request Samples.scan) Samples.scan Samples.api_key
              eq_refl ltac:(vm_compute; discriminate)
              ltac:(vm_compute; reflexivity) eq_refl eq_refl)
    as (d & Hcalls & _ & Hmime & Hdata & _).
  exists d. split; [exact Hcalls|]. split; [exact Hmime|exact Hdata].
Defined.

(** An upload of one byte over the cap: no call, and the too-large failure. *)
Lemma oversized_upload_rejected_witness :
  MAX_FILE_BYTES < Buffer.byteLength (File.bytes Samples.oversized)
  /\ fst (POST (Samples.world Samples.parse_failure)
            (page_request Samples.oversized)) = []
  /\ snd (POST (Samples.world Samples.parse_failure)
            (page_request Samples.oversized))
     = Returned (Some AtSizeCheck,
                 {| status := 500; body := error_body msg_too_large |}).
Proof.
  split; [exact oversized_too_long|].
  pose proof (oversized_upload_rejected (Samples.world Samples.parse_failure)
                (page_request Samples.oversized) Samples.oversized
                eq_refl oversized_too_long) as (Htrace & _ & _ & Hreply).
  split; [exact Htrace|exact (Hreply eq_refl)].
Defined.

(** A small text upload is decoded and takes the text path. *)
Lemma plain_upload_witness :
  let w := Samples.world Samples.parse_failure in
  let b := File.bytes Samples.transcript in
  isPdf Samples.transcript = false
  /\ extractTextFromFile w Samples.transcript
     = ([EvUtf8Decode b], Returned (toString_utf8 w b, b))
  /\ POST w (page_request Samples.transcript)
     = after [EvUtf8Decode b] (text_path w (toString_utf8 w b)).
Proof.
  cbv zeta. split; [reflexivity|].
  pose proof (plain_upload_takes_text_path (Samples.world Samples.parse_failure)
                (page_request Samples.transcript) Samples.transcript
                eq_refl eq_refl ltac:(vm_compute; discriminate))
    as (Hextract & _ & HPOST & _).
  split; [exact Hextract|exact HPOST].
Defined.

(** Of a text of 40,001 letters the text branch sends the first 40,000;
    a text of three letters is sent whole. *)
Lemma truncation_witness :
  40000 < JsString.length (Samples.letters 40001)
  /\ (exists p,
        model_calls
          (fst (text_branch (Samples.world Samples.parse_failure)
                  (Samples.letters 40001))) = [p]
        /\ texts p
           = [SYSTEM_PROMPT ++ [LF; LF]
              ++ userPrompt (firstn (Z.to_nat 40000) (Samples.letters 40001))])
  /\ JsString.length (firstn (Z.to_nat 40000) (Samples.letters 40001)) = 40000
  /\ text_branch (Samples.world Samples.parse_failure) (Samples.letters 3)
     = bind (summarizeEarningsCall (Samples.world Samples.parse_failure)
               (userPrompt (Samples.letters 3)) None)
         (fun summary => ret (None, NextResponse_json summary 200)).
Proof.
  assert (40000 < JsString.length (Samples.letters 40001)) as Hlong
    by (vm_compute; reflexivity).
  pose proof (truncation_is_prefix (Samples.world Samples.parse_failure)
                (Samples.letters 40001)) as (_ & Hsent & _ & Hcut & _).
  cbv zeta in Hsent, Hcut.
  destruct (Hcut Hlong) as [Heq Hlen]. rewrite Heq in Hsent, Hlen.
  destruct (Hsent Samples.api_key eq_refl eq_refl) as (p & Hcalls & _ & Htexts).
  split; [exact Hlong|]. split; [|split; [exact Hlen|]].
  - exists p. split; [exact Hcalls|exact Htexts].
  - exact (proj1 (truncation_is_prefix (Samples.world Samples.parse_failure)
                    (Samples.letters 3))).
Defined.

(** A PDF the parser rejects goes on to the binary path. *)
Lemma pdf_parse_failure_witness :
  let w := Samples.world Samples.parse_failure in
  let b := File.bytes Samples.report in
  pdf_getText w b = Samples.parse_failure
  /\ extractTextFromFile w Samples.report = ([EvPdfParse b], Returned ([], b))
  /\ POST w (page_request Samples.report)
     = after [EvPdfParse b] (binary_path w b).
Proof.
  cbv zeta. split; [reflexivity|].
  pose proof (pdf_parse_failure_degrades (Samples.world Samples.parse_failure)
                (page_request Samples.report) Samples.report
                (Error "Invalid PDF structure")
                eq_refl eq_refl ltac:(vm_compute; discriminate) eq_refl)
    as (Hextract & _ & HPOST & _).
  split; [exact Hextract|exact HPOST].
Defined.

(** Without the credential the text upload fails and the model is not
    called. *)
Lemma missing_key_witness :
  absent (env_GEMINI_API_KEY Samples.world_without_key) = true
  /\ model_calls
       (fst (POST Samples.world_without_key
               (page_request Samples.transcript))) = []
  /\ snd (POST Samples.world_without_key
            (page_request Samples.transcript))
     = Returned (Some AtApiKeyCheck,
                 {| status := 500; body := error_body msg_no_key |}).
Proof.
  split; [reflexivity|].
  pose proof (missing_key_fails_before_network Samples.world_without_key eq_refl)
    as (_ & _ & Hcalls & Hreply).
  split; [apply Hcalls|].
  exact (Hreply (page_request Samples.transcript) Samples.transcript
           eq_refl ltac:(vm_compute; discriminate)).
Defined.

(** [Scan.PDF], declared as [application/octet-stream], is sent as a PDF. *)
Lemma pdf_by_name_witness :
  ends_in_pdf (File.name Samples.scan)
  /\ File.type Samples.scan <> js "application/pdf"
  /\ isPdf Samples.scan = true
  /\ sends_bytes
       (fst (POST (Samples.world Samples.parse_failure)
               (page_request Samples.scan)))
       (File.bytes Samples.scan) (js "application/pdf").
Proof.
  assert (ends_in_pdf (File.name Samples.scan)) as Hname.
  { exists (js "Scan"), 80%N, 68%N, 70%N. repeat split; auto. }
  split; [exact Hname|]. split; [vm_compute; discriminate|].
  pose proof (pdf_by_name_never_decoded (Samples.world Samples.parse_failure)
                (page_request Samples.scan) Samples.scan Hname eq_refl)
    as (Hpdf & _ & Hsend).
  split; [exact Hpdf|].
  apply (Hsend ltac:(vm_compute; discriminate) Samples.api_key eq_refl eq_refl).
  left. eexists. reflexivity.
Defined.

(* ===================================================================== *)
(** ** Further facts about strings and the transport encoding *)
(* ===================================================================== *)

Module MoreFacts.

Lemma endsWith_inv (s suffix : jsstring) :
  JsString.endsWith s suffix = true -> exists stem, s = stem ++ suffix.
Proof.
  unfold JsString.endsWith.
  destruct (_ <? 0); [discriminate|].
  intros H. apply JsStringFacts.eqb_eq in H.
  remember (Z.to_nat (JsString.length s - JsString.length suffix)) as n.
  exists (firstn n s). subst suffix. symmetry. apply firstn_skipn.
Qed.

Lemma lower_full_stop (c : code_unit) : JsString.lower c = 46%N -> c = 46%N.
Proof.
  unfold JsString.lower.
  destruct ((65 <=? c) && (c <=? 90))%N eqn:Hc; [|easy].
  apply andb_true_iff in Hc. destruct Hc as [H1 H2].
  apply N.leb_le in H1. apply N.leb_le in H2. lia.
Qed.

Lemma lower_letter (c l : code_unit) :
  (97 <= l <= 122)%N -> JsString.lower c = l -> c = l \/ c = (l - 32)%N.
Proof.
  unfold JsString.lower. intros Hl.
  destruct ((65 <=? c) && (c <=? 90))%N; [right|left]; lia.
Qed.

Lemma trimStart_whitespace (ws s : jsstring) :
  forallb JsString.is_whitespace ws = true ->
  JsString.trimStart (ws ++ s) = JsString.trimStart s.
Proof.
  induction ws as [|c ws IH]; [reflexivity|].
  simpl. intros H. apply andb_true_iff in H. destruct H as [Hc Hws].
  rewrite Hc. now apply IH.
Qed.

Lemma trimStart_all (ws : jsstring) :
  forallb JsString.is_whitespace ws = true -> JsString.trimStart ws = [].
Proof.
  intros H. rewrite <- (app_nil_r ws). now rewrite trimStart_whitespace.
Qed.

(** What [trimStart] leaves is empty or starts with a character that is
    kept. *)
Lemma trimStart_cases (s : jsstring) :
  JsString.trimStart s = []
  \/ exists c rest, JsString.trimStart s = c :: rest
                    /\ JsString.is_whitespace c = false.
Proof.
  induction s as [|c s IH]; [now left|].
  simpl. destruct (JsString.is_whitespace c) eqn:Hc; [exact IH|].
  right. now exists c, s.
Qed.

Lemma trimStart_app (s t : jsstring) :
  JsString.trimStart s <> [] ->
  JsString.trimStart (s ++ t) = JsString.trimStart s ++ t.
Proof.
  induction s as [|c s IH]; [easy|].
  simpl. destruct (JsString.is_whitespace c); [exact IH|reflexivity].
Qed.

Lemma forallb_reverse {A} (f : A -> bool) (l : list A) :
  forallb f (rev l) = forallb f l.
Proof.
  induction l as [|a l IH]; [reflexivity|].
  simpl. rewrite forallb_app, IH. simpl. rewrite andb_true_r.
  apply andb_comm.
Qed.

Lemma trimEnd_whitespace (s ws : jsstring) :
  forallb JsString.is_whitespace ws = true ->
  JsString.trimEnd (s ++ ws) = JsString.trimEnd s.
Proof.
  intros H. unfold JsString.trimEnd. rewrite rev_app_distr.
  rewrite trimStart_whitespace; [reflexivity|].
  now rewrite forallb_reverse.
Qed.

(** Whitespace around a text does not change what [trim] returns. *)
Lemma trim_padding (ws1 t ws2 : jsstring) :
  forallb JsString.is_whitespace ws1 = true ->
  forallb JsString.is_whitespace ws2 = true ->
  JsString.trim (ws1 ++ t ++ ws2) = JsString.trim t.
Proof.
  intros H1 H2. unfold JsString.trim.
  rewrite (trimStart_whitespace ws1 _ H1).
  destruct (JsString.trimStart t) as [|c rest] eqn:Ht.
  - assert (JsString.trimStart (t ++ ws2) = []) as ->; [|reflexivity].
    clear H1. induction t as [|d t IH]; simpl in *.
    + now apply trimStart_all.
    + destruct (JsString.is_whitespace d); [now apply IH|discriminate].
  - rewrite trimStart_app by (rewrite Ht; discriminate).
    rewrite Ht. now apply trimEnd_whitespace.
Qed.

(** The encoding of [n] bytes has [4 * ceil (n / 3)] characters. *)
Lemma base64_length (b : Buffer) :
  JsString.length (Buffer.toString_base64 b)
  = 4 * ((Buffer.byteLength b + 2) / 3).
Proof.
  unfold JsString.length, Buffer.byteLength.
  induction b as [|x|x y|x y z rest IH] using Base64Facts.buffer_ind3;
    try reflexivity.
  cbn [Buffer.toString_base64]. rewrite List.length_app.
  cbn [List.length]. rewrite Nat2Z.inj_add, IH.
  replace (Z.of_nat (S (S (S (List.length rest)))) + 2)
    with ((Z.of_nat (List.length rest) + 2) + 1 * 3) by lia.
  rewrite Z.div_add by lia. simpl Z.of_nat. lia.
Qed.

Lemma slice_length_bound (s : jsstring) (n : Z) :
  0 <= n -> JsString.length (JsString.slice s 0 n) <= n.
Proof.
  intros Hn. rewrite JsStringFacts.slice_from_start by assumption.
  unfold JsString.length. rewrite List.length_firstn. lia.
Qed.

End MoreFacts.

(* ===================================================================== *)
(** ** Further properties of the route *)
(* ===================================================================== *)

Section MoreRouteFacts.

Variable w : World.

Lemma summarize_trace_shape (p : jsstring) (i : option InlineData) :
  fst (summarizeEarningsCall w p i) = []
  \/ exists k, fst (summarizeEarningsCall w p i)
               = [EvGenerateContent k (request_params p i)].
Proof.
  destruct (absent_cases (env_GEMINI_API_KEY w)) as [Ha|[k [Hk Hf]]].
  - left. now rewrite summarize_no_key.
  - right. exists k. now apply summarize_trace.
Qed.

(** Past the checks, the handler makes one extraction call and then answers
    with the outcome of one call of [summarizeEarningsCall], on one of its
    two argument shapes. *)
Lemma POST_model_path (req : NextRequest) (f : File) :
  accepted_upload req = Some f ->
  Buffer.byteLength (File.bytes f) <= MAX_FILE_BYTES ->
  exists ev p i,
    POST w req = after [ev] (answer (summarizeEarningsCall w p i))
    /\ model_calls [ev] = []
    /\ ((i = None /\ exists text, p = userPrompt (JsString.slice text 0 MAX_CHARS))
        \/ (i = Some {| mimeType := js "application/pdf";
                        data := Buffer.toString_base64 (File.bytes f) |}
            /\ p = scanned_prompt)).
Proof.
  intros Hreq Hsize.
  destruct (isPdf f) eqn:Hpdf.
  - rewrite (POST_pdf w req f Hreq Hsize Hpdf).
    destruct (isScanned f _).
    + eexists. eexists. eexists. split; [reflexivity|]. split; [reflexivity|].
      right. split; reflexivity.
    + eexists. eexists. eexists. split; [reflexivity|]. split; [reflexivity|].
      left. split; [reflexivity|]. eexists. reflexivity.
  - rewrite (POST_plain w req f Hreq Hsize Hpdf).
    eexists. eexists. eexists. split; [reflexivity|]. split; [reflexivity|].
    left. split; [reflexivity|]. eexists. reflexivity.
Qed.

(** A request that fails a check reaches nothing outside the module. *)
Lemma POST_quiet (req : NextRequest) :
  accepted_upload req = None
  \/ (exists f, accepted_upload req = Some f
                /\ MAX_FILE_BYTES < Buffer.byteLength (File.bytes f)) ->
  fst (POST w req) = [].
Proof.
  intros [Hreq|[f [Hreq Hbig]]].
  - destruct (POST_rejected w req Hreq) as [r [-> _]]. reflexivity.
  - now rewrite (POST_oversized w req f Hreq Hbig).
Qed.

Lemma userPrompt_length (t : jsstring) :
  JsString.length (userPrompt t) = JsString.length t + 56.
Proof.
  unfold userPrompt. rewrite !JsStringFacts.length_app.
  change (JsString.length [LF]) with 1.
  change (JsString.length [LF; LF]) with 2.
  change (JsString.length [dquote; dquote; dquote]) with 3.
  assert (JsString.length
            (js "Transcript text (may be truncated for length):") = 46) as ->
    by (vm_compute; reflexivity).
  lia.
Qed.

Lemma tool_mismatch_iff (tool : option FormDataEntryValue) :
  tool_mismatch tool = false
  <-> tool = Some (EntryString (js "earnings_summary")).
Proof.
  unfold tool_mismatch. split.
  - destruct tool as [[s|f]|]; try discriminate.
    intros H. apply negb_false_iff, JsStringFacts.eqb_eq in H. now subst.
  - intros ->. now rewrite JsStringFacts.eqb_refl.
Qed.

Lemma accepted_status (req : NextRequest) (f : File) :
  accepted_upload req = Some f ->
  exists tr site resp,
    POST w req = (tr, Returned (site, resp))
    /\ (status resp = 200 \/ status resp = 500).
Proof.
  intros Hreq.
  destruct (Z.lt_ge_cases MAX_FILE_BYTES (Buffer.byteLength (File.bytes f)))
    as [Hbig|Hsize].
  - rewrite (POST_oversized w req f Hreq Hbig).
    eexists. eexists. eexists. split; [reflexivity|]. now right.
  - destruct (POST_model_path req f Hreq Hsize) as (ev & p & i & -> & _).
    unfold after, answer. cbn [fst snd].
    destruct (snd (summarizeEarningsCall w p i)) as [j|s e];
      (eexists; eexists; eexists; split; [reflexivity|]); [now left|now right].
Qed.

End MoreRouteFacts.

(** Worlds that agree on everything but the parser agree on every model
    call. *)
Lemma summarize_same (w1 w2 : World) (p : jsstring) (i : option InlineData) :
  same_but_parser w1 w2 ->
  summarizeEarningsCall w1 p i = summarizeEarningsCall w2 p i.
Proof.
  intros (Hk & _ & Hg & Hj). unfold summarizeEarningsCall.
  now rewrite Hk, Hg, Hj.
Qed.

Section MoreRoute.

Variable w : World.

(** X1.  A file is classified as a PDF exactly when it declares the media
    type [application/pdf] or its name ends in [.pdf] in some mix of
    cases. *)
Theorem isPdf_iff (f : File) :
  isPdf f = true
  <-> File.type f = js "application/pdf" \/ ends_in_pdf (File.name f).
Proof.
  split.
  - unfold isPdf. intros H. apply orb_true_iff in H.
    destruct H as [H|H]; [left; now apply JsStringFacts.eqb_eq|right].
    apply MoreFacts.endsWith_inv in H. destruct H as [stem' H].
    unfold JsString.toLowerCase in H. apply map_eq_app in H.
    destruct H as (stem & tail & Hname & _ & Htail).
    destruct tail as [|c0 [|c1 [|c2 [|c3 [|c4 tail]]]]]; try discriminate.
    injection Htail as H0 H1 H2 H3.
    apply MoreFacts.lower_full_stop in H0.
    apply MoreFacts.lower_letter in H1; [|lia].
    apply MoreFacts.lower_letter in H2; [|lia].
    apply MoreFacts.lower_letter in H3; [|lia].
    exists stem, c1, c2, c3. subst c0. now repeat split.
  - intros [H|H]; [|now apply isPdf_by_name].
    unfold isPdf. rewrite H. now rewrite JsStringFacts.eqb_refl.
Qed.

(** X2.  [extractTextFromFile] throws for the files over the size cap and
    for no other: within the cap it returns, after exactly one call to the
    parser or to the decoder, a text together with the very bytes of the
    file, whatever the parser did. *)
Theorem extraction_throws_iff_oversized (f : File) :
  ((exists s e, snd (extractTextFromFile w f) = Thrown s e)
   <-> MAX_FILE_BYTES < Buffer.byteLength (File.bytes f))
  /\ (Buffer.byteLength (File.bytes f) <= MAX_FILE_BYTES
      <-> exists ev text,
            extractTextFromFile w f = ([ev], Returned (text, File.bytes f))
            /\ ev = (if isPdf f then EvPdfParse (File.bytes f)
                     else EvUtf8Decode (File.bytes f))).
Proof.
  destruct (Z.lt_ge_cases MAX_FILE_BYTES (Buffer.byteLength (File.bytes f)))
    as [Hbig|Hsize].
  - rewrite (extract_oversized w f Hbig). split; split.
    + now intros _.
    + intros _. eexists. eexists. reflexivity.
    + lia.
    + intros (ev & text & H & _). discriminate.
  - assert (exists ev text,
               extractTextFromFile w f = ([ev], Returned (text, File.bytes f))
               /\ ev = (if isPdf f then EvPdfParse (File.bytes f)
                        else EvUtf8Decode (File.bytes f))) as Hret.
    { destruct (isPdf f) eqn:Hpdf.
      - rewrite (extract_pdf w f Hsize Hpdf). eexists. eexists. now split.
      - rewrite (extract_plain w f Hsize Hpdf). eexists. eexists. now split. }
    split; split.
    + intros (s & e & H). destruct Hret as (ev & text & Hx & _).
      rewrite Hx in H. discriminate.
    + lia.
    + now intros _.
    + now intros _.
Qed.

(** X3.  A request is attempted once: the handler makes at most one
    extraction call (to the parser or to the decoder, never both) and then
    at most one call to the model, which is the last call it makes. *)
Theorem single_attempt (req : NextRequest) :
  exists pre post,
    fst (POST w req) = pre ++ post
    /\ (List.length pre <= 1)%nat
    /\ model_calls pre = []
    /\ (post = [] \/ exists k p, post = [EvGenerateContent k p]).
Proof.
  destruct (accepted_upload req) as [f|] eqn:Hreq.
  2: { exists [], []. rewrite POST_quiet by now left.
       repeat split; auto. }
  destruct (Z.lt_ge_cases MAX_FILE_BYTES (Buffer.byteLength (File.bytes f)))
    as [Hbig|Hsize].
  { exists [], []. rewrite POST_quiet by (right; now exists f).
    repeat split; auto. }
  destruct (POST_model_path w req f Hreq Hsize) as (ev & p & i & -> & Hev & _).
  exists [ev], (fst (summarizeEarningsCall w p i)).
  split; [reflexivity|]. split; [simpl; lia|]. split; [exact Hev|].
  destruct (summarize_trace_shape w p i) as [->|[k ->]];
    [now left|right; now exists k, (request_params p i)].
Qed.

(** X4.  Every request sent to the model names the same model and asks for
    JSON under the summary schema; it holds one text of at most 42,602
    characters (the prompt, and at most 40,000 characters of the document)
    and at most one attachment, of media type [application/pdf] and at most
    27,962,028 characters of base64. *)
Theorem model_request_bounds (req : NextRequest) :
  Forall
    (fun p =>
       model p = js "models/gemini-2.5-flash"
       /\ config p = {| responseMimeType := js "application/json";
                        responseSchema := Schema.EARNINGS_SUMMARY_SCHEMA |}
       /\ (exists t, texts p = [t] /\ JsString.length t <= 42602)
       /\ (List.length (attachments p) <= 1)%nat
       /\ Forall (fun d => mimeType d = js "application/pdf"
                           /\ JsString.length (data d) <= 27962028)
            (attachments p))
    (model_calls (fst (POST w req))).
Proof.
  destruct (accepted_upload req) as [f|] eqn:Hreq.
  2: { rewrite POST_quiet by now left. constructor. }
  destruct (Z.lt_ge_cases MAX_FILE_BYTES (Buffer.byteLength (File.bytes f)))
    as [Hbig|Hsize].
  { rewrite POST_quiet by (right; now exists f). constructor. }
  destruct (POST_model_path w req f Hreq Hsize)
    as (ev & p & i & -> & Hev & Hargs).
  unfold after, answer. cbn [fst].
  unfold model_calls in *. rewrite flat_map_app, Hev. cbn [app].
  destruct (summarize_trace_shape w p i) as [->|[k ->]]; [constructor|].
  cbn [flat_map app]. constructor; [|constructor].
  split; [reflexivity|]. split; [reflexivity|].
  assert (JsString.length SYSTEM_PROMPT = 2544) as Hprompt
    by (vm_compute; reflexivity).
  destruct Hargs as [[-> [text ->]]|[-> ->]].
  - split; [|split; [simpl; lia|constructor]].
    eexists. split; [reflexivity|].
    rewrite !JsStringFacts.length_app, Hprompt, userPrompt_length.
    change (JsString.length [LF; LF]) with 2.
    pose proof (MoreFacts.slice_length_bound text MAX_CHARS) as Hs.
    unfold MAX_CHARS in *. lia.
  - split; [|split; [simpl; lia|]].
    + eexists. split; [reflexivity|]. vm_compute. discriminate.
    + cbn [attachments request_params contents parts flat_map app
             user_content]. constructor; [|constructor].
      cbn [mimeType data]. split; [reflexivity|].
      rewrite MoreFacts.base64_length.
      unfold MAX_FILE_BYTES in Hsize.
      assert ((Buffer.byteLength (File.bytes f) + 2) / 3 < 6990508).
      { apply Z.div_lt_upper_bound; lia. }
      lia.
Qed.

End MoreRoute.

(** X5.  The base64 text attached on the binary path determines the bytes:
    two buffers have the same encoding only when they are the same buffer;
    and [n] bytes give [4 * ceil (n / 3)] characters. *)
Theorem base64_is_lossless (b1 b2 : Buffer) :
  (Buffer.toString_base64 b1 = Buffer.toString_base64 b2 <-> b1 = b2)
  /\ JsString.length (Buffer.toString_base64 b1)
     = 4 * ((Buffer.byteLength b1 + 2) / 3).
Proof.
  split; [split|apply MoreFacts.base64_length].
  - intros H.
    pose proof (Base64Facts.from_base64_toString b1) as H1.
    pose proof (Base64Facts.from_base64_toString b2) as H2.
    rewrite H in H1. congruence.
  - now intros ->.
Qed.

(** X6.  The scanned-document test does not see whitespace around the
    extracted text: padding a text with whitespace on either side leaves
    the outcome of the test unchanged. *)
Theorem isScanned_ignores_padding (f : File) (ws1 t ws2 : jsstring) :
  forallb JsString.is_whitespace ws1 = true ->
  forallb JsString.is_whitespace ws2 = true ->
  isScanned f (ws1 ++ t ++ ws2) = isScanned f t.
Proof.
  intros H1 H2. unfold isScanned.
  rewrite (MoreFacts.trim_padding ws1 t ws2 H1 H2).
  destruct (isPdf f); [cbn [andb]|reflexivity].
  destruct t as [|c t].
  - rewrite app_nil_l.
    assert (JsString.trim [] = []) as -> by reflexivity.
    cbn [JsString.falsy orb].
    change (JsString.length [] <? 500) with true. apply orb_true_r.
  - assert (JsString.falsy (ws1 ++ (c :: t) ++ ws2) = false) as ->.
    { destruct ws1; reflexivity. }
    reflexivity.
Qed.

Section RouteFailures.

Variable w : World.

(** X7.  Past the input and size checks and with the credential configured,
    the model is called exactly once whatever it answers, and each way the
    call can fail is answered with status 500: a thrown error with its own
    message, a missing or empty text with [No text returned from Gemini
    model.], a text [JSON.parse] rejects with the message of the parser. *)
Theorem upstream_failures (req : NextRequest) (f : File) (k : jsstring) :
  accepted_upload req = Some f ->
  Buffer.byteLength (File.bytes f) <= MAX_FILE_BYTES ->
  env_GEMINI_API_KEY w = Some k -> JsString.falsy k = false ->
  List.length (model_calls (fst (POST w req))) = 1%nat
  /\ (forall e,
        (forall params, generateContent w k params = inl e) ->
        snd (POST w req)
        = Returned (Some AtGenerateContent,
                    {| status := 500; body := error_body (error_message e) |}))
  /\ (forall t,
        (forall params, generateContent w k params = inr t) ->
        absent t = true ->
        snd (POST w req)
        = Returned (Some AtEmptyText,
                    {| status := 500;
                       body := error_body
                                 (js "No text returned from Gemini model.") |}))
  /\ (forall t e,
        (forall params, generateContent w k params = inr (Some t)) ->
        JsString.falsy t = false ->
        JSON_parse w t = inl e ->
        snd (POST w req)
        = Returned (Some AtJsonParse,
                    {| status := 500; body := error_body (error_message e) |})).
Proof.
  intros Hreq Hsize Hk Hf.
  assert (forall c,
             (forall p i, snd (summarizeEarningsCall w p i) = c) ->
             snd (POST w req) = Returned (reply_of c)) as Hreply.
  { intros c Hc. exact (POST_reply w req f c Hreq Hsize Hc). }
  split; [|split; [|split]].
  - destruct (POST_model_path w req f Hreq Hsize)
      as (ev & p & i & -> & Hev & _).
    unfold after, answer. cbn [fst].
    unfold model_calls in *. rewrite flat_map_app, Hev.
    now rewrite (summarize_trace w p i k Hk Hf).
  - intros e Hmodel. apply (Hreply (Thrown AtGenerateContent e)).
    intros p i. unfold summarizeEarningsCall.
    rewrite (truthy_some _ k Hk Hf). unfold call, bind.
    now rewrite Hmodel.
  - intros t Hmodel Ht.
    apply (Hreply (Thrown AtEmptyText
                     (Error "No text returned from Gemini model."))).
    intros p i. unfold summarizeEarningsCall.
    rewrite (truthy_some _ k Hk Hf). unfold call, bind, throw.
    rewrite Hmodel. unfold absent in Ht.
    destruct (truthy t); [discriminate|reflexivity].
  - intros t e Hmodel Ht Hparse. apply (Hreply (Thrown AtJsonParse e)).
    intros p i. unfold summarizeEarningsCall.
    rewrite (truthy_some _ k Hk Hf). unfold call, bind, attempt.
    now rewrite Hmodel, (truthy_some _ t eq_refl Ht), Hparse.
Qed.

(** X8.  The handler answers with status 400 exactly when the form is
    readable and either its first [tool] value is not the string
    [earnings_summary] or its first [file] value is not a file. *)
Theorem bad_request_iff (req : NextRequest) :
  (exists tr site resp,
      POST w req = (tr, Returned (site, resp)) /\ status resp = 400)
  <-> exists fd,
        formData req = inr fd
        /\ (FormData_get fd (js "tool")
            <> Some (EntryString (js "earnings_summary"))
            \/ forall f, FormData_get fd (js "file") <> Some (EntryFile f)).
Proof.
  split.
  - intros (tr & site & resp & HP & Hst).
    destruct (formData req) as [e|fd] eqn:Hform.
    { rewrite (POST_unreadable_form w req e Hform) in HP.
      injection HP as _ _ <-. discriminate. }
    exists fd. split; [reflexivity|].
    destruct (tool_mismatch (FormData_get fd (js "tool"))) eqn:Htool.
    { left. intros H. apply tool_mismatch_iff in H. congruence. }
    right. intros f Hfile.
    assert (accepted_upload req = Some f) as Hreq.
    { unfold accepted_upload. now rewrite Hform, Htool, Hfile. }
    destruct (accepted_status w req f Hreq) as (tr' & site' & resp' & HP' & H).
    rewrite HP in HP'. injection HP' as _ _ ->. lia.
  - intros (fd & Hform & H).
    destruct (tool_mismatch (FormData_get fd (js "tool"))) eqn:Htool.
    { rewrite (POST_wrong_tool w req fd Hform Htool).
      eexists. eexists. eexists. split; reflexivity. }
    destruct H as [H|H].
    { apply tool_mismatch_iff in Htool. contradiction. }
    rewrite (POST_no_file w req fd Hform Htool).
    + eexists. eexists. eexists. split; reflexivity.
    + unfold uploaded_file. rewrite Hform.
      destruct (FormData_get fd (js "file")) as [[s|f]|]; try reflexivity.
      now destruct (H f).
Qed.

End RouteFailures.

(** X9.  What the PDF parser throws never reaches the client: two worlds
    that differ only in the error of the parser answer every request for
    that file alike, and call the model alike. *)
Theorem parser_error_is_swallowed
  (w1 w2 : World) (req : NextRequest) (f : File) (e1 e2 : JsError) :
  same_but_parser w1 w2 ->
  accepted_upload req = Some f ->
  pdf_getText w1 (File.bytes f) = inl e1 ->
  pdf_getText w2 (File.bytes f) = inl e2 ->
  POST w1 req = POST w2 req.
Proof.
  intros Hsame Hreq H1 H2.
  destruct (Z.lt_ge_cases MAX_FILE_BYTES (Buffer.byteLength (File.bytes f)))
    as [Hbig|Hsize].
  { now rewrite (POST_oversized w1 req f Hreq Hbig),
                (POST_oversized w2 req f Hreq Hbig). }
  destruct (isPdf f) eqn:Hpdf.
  - rewrite (POST_pdf w1 req f Hreq Hsize Hpdf),
            (POST_pdf w2 req f Hreq Hsize Hpdf).
    unfold pdf_text. rewrite H1, H2.
    unfold binary_path, text_path.
    now rewrite !(summarize_same w1 w2 _ _ Hsame).
  - rewrite (POST_plain w1 req f Hreq Hsize Hpdf),
            (POST_plain w2 req f Hreq Hsize Hpdf).
    destruct Hsame as (Hk & Hu & Hg & Hj). rewrite Hu.
    unfold text_path.
    now rewrite (summarize_same w1 w2 _ _ (conj Hk (conj Hu (conj Hg Hj)))).
Qed.

(* ===================================================================== *)
(** ** Properties of the portal page *)
(* ===================================================================== *)

Section PageFacts.

Variable b : Page.Browser.

Lemma handleSubmit_sent (f : File) :
  Page.size f <= 4 * 1024 * 1024 ->
  Page.handleSubmit b (Some f)
  = {| Page.request := Some (page_form f);
       Page.updates :=
         [Page.StatusSubmitting; Page.settle (Page.fetch b (page_form f))] |}.
Proof.
  intros H. unfold Page.handleSubmit, Page.MAX_MB.
  now rewrite (proj2 (Z.ltb_ge _ _) H).
Qed.

Lemma handleSubmit_too_large (f : File) :
  4 * 1024 * 1024 < Page.size f ->
  Page.handleSubmit b (Some f)
  = {| Page.request := None;
       Page.updates := [Page.StatusError (Page.msg_size b f)] |}.
Proof.
  intros H. unfold Page.handleSubmit, Page.MAX_MB.
  now rewrite (proj2 (Z.ltb_lt _ _) H).
Qed.

Lemma settle_settled (r : JsError + Page.FetchResponse) :
  settled (Page.settle r) = true.
Proof.
  unfold Page.settle. destruct r as [e|resp]; [reflexivity|].
  destruct (Page.ok resp); cbn [negb].
  - destruct (Page.json resp); reflexivity.
  - destruct (Page.text resp); reflexivity.
Qed.

Lemma settle_success (r : JsError + Page.FetchResponse) (d : Json) :
  Page.settle r = Page.StatusSuccess d ->
  exists resp, r = inr resp /\ Page.ok resp = true /\ Page.json resp = inr d.
Proof.
  unfold Page.settle. destruct r as [e|resp]; [discriminate|].
  destruct (Page.ok resp) eqn:Hok;
    [|cbn [negb]; destruct (Page.text resp); discriminate]. cbn [negb].
  destruct (Page.json resp) as [e|j] eqn:Hj; [discriminate|].
  intros H. injection H as ->. now exists resp.
Qed.

(** X10.  The page calls [fetch] exactly for a chosen file of at most
    4 MiB, the bound included; every run of [handleSubmit] ends in a
    settled state, an error or a success, and passes through the
    submitting state exactly when it called [fetch]. *)
Theorem page_sends_iff (file : option File) :
  (Page.request (Page.handleSubmit b file) <> None
   <-> exists f, file = Some f /\ Page.size f <= 4 * 1024 * 1024)
  /\ exists st,
       settled st = true
       /\ match Page.request (Page.handleSubmit b file) with
          | None => Page.updates (Page.handleSubmit b file) = [st]
          | Some fd =>
              Page.updates (Page.handleSubmit b file)
              = [Page.StatusSubmitting; st]
              /\ (forall f, file = Some f -> fd = page_form f)
          end.
Proof.
  destruct file as [f|].
  2: { split.
       - split; [now intros H|]. intros (f & H & _). discriminate.
       - eexists. split; [|reflexivity]. reflexivity. }
  destruct (Z.lt_ge_cases (4 * 1024 * 1024) (Page.size f)) as [Hbig|Hsize].
  - rewrite (handleSubmit_too_large f Hbig). cbn [Page.request Page.updates].
    split.
    + split; [now intros H|]. intros (f' & H & Hle). injection H as <-. lia.
    + eexists. split; [|reflexivity]. reflexivity.
  - rewrite (handleSubmit_sent f Hsize). cbn [Page.request Page.updates].
    split.
    + split; [intros _; now exists f|discriminate].
    + eexists. split; [apply settle_settled|].
      split; [reflexivity|]. intros f' H. now injection H as <-.
Qed.

(** X11.  The page never shows a summary it did not receive: a run of
    [handleSubmit] sets the success state only with the JSON of a response
    that [fetch] returned with [ok] set. *)
Theorem success_only_from_ok_response (file : option File) (d : Json) :
  In (Page.StatusSuccess d) (Page.updates (Page.handleSubmit b file)) ->
  exists f resp,
    file = Some f
    /\ Page.size f <= 4 * 1024 * 1024
    /\ Page.fetch b (page_form f) = inr resp
    /\ Page.ok resp = true
    /\ Page.json resp = inr d.
Proof.
  destruct file as [f|]; [|intros [H|[]]; discriminate].
  destruct (Z.lt_ge_cases (4 * 1024 * 1024) (Page.size f)) as [Hbig|Hsize].
  - rewrite (handleSubmit_too_large f Hbig).
    intros [H|[]]; discriminate.
  - rewrite (handleSubmit_sent f Hsize). cbn [Page.updates].
    intros [H|[H|[]]]; [discriminate|].
    destruct (settle_success _ d H) as (resp & Hr & Hok & Hj).
    now exists f, resp.
Qed.

End PageFacts.

Section PageAndRoute.

Variable w : World.

(** X12.  What the page posts always passes the checks of the route: the
    form is accepted with the chosen file, the file is within the server
    cap, and the route answers neither with status 400 nor with the
    too-large failure; it stops, if at all, at the model call. *)
Theorem page_request_passes_checks
  (b : Page.Browser) (f : File) (fd : FormData) :
  Page.request (Page.handleSubmit b (Some f)) = Some fd ->
  accepted_upload {| formData := inr fd |} = Some f
  /\ Buffer.byteLength (File.bytes f) <= MAX_FILE_BYTES
  /\ exists tr site resp,
       POST w {| formData := inr fd |} = (tr, Returned (site, resp))
       /\ (status resp = 200 \/ status resp = 500)
       /\ (site = None \/ site = Some AtApiKeyCheck
           \/ site = Some AtGenerateContent \/ site = Some AtEmptyText
           \/ site = Some AtJsonParse).
Proof.
  intros Hsent.
  destruct (Z.lt_ge_cases (4 * 1024 * 1024) (Page.size f)) as [Hbig|Hsize].
  { rewrite (handleSubmit_too_large b f Hbig) in Hsent. discriminate. }
  rewrite (handleSubmit_sent b f Hsize) in Hsent.
  cbn [Page.request] in Hsent. injection Hsent as <-.
  assert (accepted_upload {| formData := inr (page_form f) |} = Some f)
    as Hreq by reflexivity.
  assert (Buffer.byteLength (File.bytes f) <= MAX_FILE_BYTES) as Hcap.
  { unfold Page.size, MAX_FILE_BYTES in *. lia. }
  split; [exact Hreq|]. split; [exact Hcap|].
  destruct (POST_model_path w _ f Hreq Hcap) as (ev & p & i & -> & _).
  unfold after, answer. cbn [fst snd].
  pose proof (summarize_sites w p i) as Hsites.
  destruct (snd (summarizeEarningsCall w p i)) as [j|s e].
  - eexists. eexists. eexists. split; [reflexivity|]. split; now left.
  - eexists. eexists. eexists. split; [reflexivity|]. split; [now right|].
    destruct (Hsites s e eq_refl) as [-> | [-> | [-> | ->]]]; auto 6.
Qed.

(** X13.  End to end, for a file of at most 4 MiB served by the route: the
    page reaches the success state only when the route answered with status
    200, and then shows what [response.json()] reads from the serialized
    body (the error state, with the message of the parser, when that
    reading throws); when the route failed, the page ends in the error
    state and its message is the whole text of the response body (or
    [Request failed] when that text is empty), not the [error] field inside
    it. *)
Theorem end_to_end
  (stringify : Json -> jsstring) (parse : jsstring -> JsError + Json)
  (label : Z -> jsstring) (f : File) :
  Page.size f <= 4 * 1024 * 1024 ->
  exists tr site resp,
    POST w (page_request f) = (tr, Returned (site, resp))
    /\ (site = None <-> status resp = 200)
    /\ Page.updates
         (Page.handleSubmit
            {| Page.fetch := served stringify parse w;
               Page.size_in_MB := label |}
            (Some f))
       = [Page.StatusSubmitting;
          match site with
          | None =>
              match parse (stringify (body resp)) with
              | inr data => Page.StatusSuccess data
              | inl error => Page.StatusError (Page.catch_message error)
              end
          | Some _ =>
              Page.StatusError
                (if JsString.falsy (stringify (body resp))
                 then js "Request failed"
                 else stringify (body resp))
          end].
Proof.
  intros Hsize. rewrite (handleSubmit_sent _ f Hsize).
  cbn [Page.updates Page.fetch]. unfold served.
  change {| formData := inr (page_form f) |} with (page_request f).
  destruct (POST_classified w (page_request f)) as (tr & [site resp] & HP & Hc).
  exists tr, site, resp. rewrite HP. cbn [snd].
  unfold classified in Hc. cbn [fst snd] in Hc.
  split; [reflexivity|].
  destruct site as [s|].
  - destruct Hc as (Hst & _ & _).
    assert (status resp = 400 \/ status resp = 500) as Hfail.
    { rewrite Hst. destruct s; cbn; auto. }
    split; [split; [discriminate|lia]|].
    unfold Page.settle, deliver.
    cbn [Page.ok Page.text Page.json]. unfold status_ok.
    destruct Hfail as [-> | ->]; reflexivity.
  - split; [now split|].
    unfold Page.settle, deliver.
    cbn [Page.ok Page.text Page.json]. unfold status_ok. now rewrite Hc.
Qed.

End PageAndRoute.

(* ===================================================================== *)
(** ** Properties of the summary view *)
(* ===================================================================== *)

Lemma nth_error_map_indexed {A B} (f : A -> Z -> B) (i : Z) (l : list A) n :
  nth_error (Page.map_indexed f i l) n
  = option_map (fun a => f a (i + Z.of_nat n)) (nth_error l n).
Proof.
  revert i n. induction l as [|a l IH]; intros i [|n]; try reflexivity.
  - cbn. now rewrite Z.add_0_r.
  - cbn [Page.map_indexed nth_error]. rewrite IH.
    destruct (nth_error l n); [|reflexivity]. cbn. do 2 f_equal. lia.
Qed.

Lemma length_map_indexed {A B} (f : A -> Z -> B) (i : Z) (l : list A) :
  List.length (Page.map_indexed f i l) = List.length l.
Proof.
  revert i. induction l as [|a l IH]; intros i; [reflexivity|].
  cbn. now rewrite IH.
Qed.

(** X14.  The guidance section shows exactly the guidance fields that hold
    a non-empty string, in the order revenue, margin, capex, other, each as
    its label and value; when no field is filled, or the summary has no
    guidance object at all, it shows the fallback sentence instead, so it
    never shows an empty list or an empty item. *)
Theorem guidance_shows_filled_fields (g : Page.ForwardGuidance) :
  Page.guidanceOrFallback None = Page.hint no_guidance
  /\ match filled_fields g with
     | [] => Page.guidanceOrFallback (Some g) = Page.hint no_guidance
     | items =>
         (exists children,
             Page.guidanceOrFallback (Some g)
             = Page.JsxElement "ul" None None Page.list_style children)
         /\ rendered_children (Page.guidanceOrFallback (Some g))
            = List.map filled_item items
     end.
Proof.
  split; [reflexivity|].
  destruct g as [r m c o].
  destruct r as [[|r0 r]|], m as [[|m0 m]|], c as [[|c0 c]|],
    o as [[|o0 o]|];
    cbn; first [reflexivity | split; [eexists; reflexivity|reflexivity]].
Qed.

(** X15.  A bullet list with items shows one list item per bullet, in
    order, keyed by its position and starting with the summary of the
    bullet; the quote block of an item is rendered exactly when the bullet
    has a non-empty supporting quote.  A missing or empty list shows the
    fallback label instead. *)
Theorem list_shows_every_bullet
  (items : list Page.BulletPoint) (emptyLabel : jsstring) :
  Page.listOrFallback None emptyLabel = Page.hint emptyLabel
  /\ match items with
     | [] => Page.listOrFallback (Some items) emptyLabel = Page.hint emptyLabel
     | _ :: _ =>
         exists children,
           Page.listOrFallback (Some items) emptyLabel
           = Page.JsxElement "ul" None None Page.list_style children
           /\ List.length children = List.length items
           /\ forall n,
                nth_error children n
                = option_map
                    (fun item =>
                       Page.JsxElement "li" (Some (Z.of_nat n)) None []
                         [Page.JsxText (Page.summary item);
                          match truthy (Page.supporting_quote item) with
                          | Some q => quote_block q
                          | None => Page.child (Page.supporting_quote item)
                          end])
                    (nth_error items n)
     end
  /\ forall quote,
       rendered
         match truthy quote with
         | Some q => quote_block q
         | None => Page.child quote
         end
       = negb (absent quote).
Proof.
  split; [reflexivity|]. split.
  - destruct items as [|item rest]; [reflexivity|].
    eexists. split; [reflexivity|].
    split; [apply length_map_indexed|].
    intros n. rewrite nth_error_map_indexed.
    destruct (nth_error (item :: rest) n) as [it|]; [|reflexivity].
    cbn [option_map]. f_equal. unfold Page.bullet. rewrite Z.add_0_l.
    do 3 f_equal.
    destruct (Page.supporting_quote it) as [[|q0 q]|]; reflexivity.
  - intros [[|q0 q]|]; reflexivity.
Qed.

(* ===================================================================== *)
(** ** Further concrete runs *)
(* ===================================================================== *)

(** A text of 600 letters between spaces and line breaks is read as the
    600 letters are. *)
Lemma isScanned_ignores_padding_witness :
  isScanned Samples.report
    (js "  " ++ Samples.letters 600 ++ [LF; LF])
  = isScanned Samples.report (Samples.letters 600).
Proof.
  exact (isScanned_ignores_padding Samples.report (js "  ")
           (Samples.letters 600) [LF; LF] eq_refl eq_refl).
Defined.

(** With the model down, the text upload is answered 500 with the message
    of the error, after one call. *)
Lemma upstream_failures_witness :
  snd (POST MoreSamples.world_model_down (page_request Samples.transcript))
  = Returned (Some AtGenerateContent,
              {| status := 500;
                 body := error_body (js "503 Service Unavailable") |}).
Proof.
  exact (proj1 (proj2 (upstream_failures MoreSamples.world_model_down
                         (page_request Samples.transcript) Samples.transcript
                         Samples.api_key eq_refl
                         ltac:(vm_compute; discriminate) eq_refl eq_refl))
           (Error "503 Service Unavailable") (fun _ => eq_refl)).
Defined.

(** Two parsers that fail differently on the same scan: the same answer. *)
Lemma parser_error_is_swallowed_witness :
  POST (Samples.world (inl (Error "Invalid PDF structure")))
    (page_request Samples.scan)
  = POST (Samples.world (inl (Error "bad XRef entry")))
      (page_request Samples.scan).
Proof.
  exact (parser_error_is_swallowed
           (Samples.world (inl (Error "Invalid PDF structure")))
           (Samples.world (inl (Error "bad XRef entry")))
           (page_request Samples.scan) Samples.scan
           (Error "Invalid PDF structure") (Error "bad XRef entry")
           (conj eq_refl (conj eq_refl (conj eq_refl eq_refl)))
           eq_refl eq_refl eq_refl).
Defined.

(** The success state of the sample run comes from an ok response. *)
Lemma success_only_from_ok_response_witness :
  exists resp,
    Page.fetch MoreSamples.answering_browser (page_form Samples.transcript)
    = inr resp
    /\ Page.ok resp = true
    /\ Page.json resp = inr Samples.tone_only.
Proof.
  destruct (success_only_from_ok_response MoreSamples.answering_browser
              (Some Samples.transcript) Samples.tone_only
              ltac:(vm_compute; right; left; reflexivity))
    as (f & resp & Hf & _ & Hfetch & Hok & Hjson).
  injection Hf as <-. now exists resp.
Defined.

(** The form posted for the sample transcript is accepted by the route. *)
Lemma page_request_passes_checks_witness :
  accepted_upload {| formData := inr (page_form Samples.transcript) |}
  = Some Samples.transcript
  /\ Buffer.byteLength (File.bytes Samples.transcript) <= MAX_FILE_BYTES.
Proof.
  pose proof (page_request_passes_checks
                (Samples.world Samples.parse_failure)
                MoreSamples.answering_browser
                Samples.transcript (page_form Samples.transcript)
                ltac:(vm_compute; reflexivity))
    as (Hreq & Hcap & _).
  split; [exact Hreq|exact Hcap].
Defined.

(** The sample transcript, served by the sample world, ends on the page as
    the tone-only summary. *)
Lemma end_to_end_witness :
  Page.updates
    (Page.handleSubmit
       (MoreSamples.sample_browser (Samples.world Samples.parse_failure))
       (Some Samples.transcript))
  = [Page.StatusSubmitting; Page.StatusSuccess Samples.tone_only].
Proof.
  destruct (end_to_end (Samples.world Samples.parse_failure)
              MoreSamples.sample_stringify Samples.parse_tone_only
              (fun _ => js "4.1")
              Samples.transcript ltac:(vm_compute; discriminate))
    as (tr & site & resp & HP & _ & Hup).
  unfold MoreSamples.sample_browser. rewrite Hup.
  vm_compute in HP. injection HP as _ <- <-. reflexivity.
Defined.
